(** * ibicus notebooks: the [LinearScaling] extension example and the
      unit conversion of the preprocessing notebook

    The two notebooks of the repository contain two pieces of code with
    a behaviour of their own:

    - notebook 04, section 3: the attrs class [LinearScaling], a
      subclass of [RunningWindowDebiaser], with its classmethod
      [from_variable] and its method [apply_on_window] (two cells, the
      second one resolving defaults from two settings tables);
    - the preprocessing notebook, section 2.4: the conversion of the
      ERA5 observations, [obs_era5 = obs_era5/86400].

    NumPy arrays of dtype float64 are lists of binary64 floats
    ([PrimFloat.float], the kernel's IEEE 754 numbers).  Python objects
    with attributes are records, methods that read [self] run in a small
    state-and-exception monad over the object, dictionaries are stdpp
    finite maps. *)

From Stdlib Require Import ZArith Floats.
From stdpp Require Import base option list strings pretty gmap fin_maps.

Open Scope float_scope.

(* ===================================================================== *)
(** ** NumPy on one-dimensional float64 arrays *)
(* ===================================================================== *)

Module np.

(** A 1-D [ndarray] of dtype float64. *)
Abbreviation array := (list float).

(** The float64 value of a Python [int] that counts elements. *)
Definition float_of_nat (n : nat) : float :=
  of_uint63 (Uint63.of_Z (Z.of_nat n)).

(** [np.sum]: the elements are added from left to right, starting from
    [0.0].  This is the order of NumPy on an array of fewer than 8
    elements; from 8 elements on NumPy adds interleaved partial sums,
    which can round differently.  The concrete arrays evaluated below
    have fewer than 8 elements; the general statements are about
    whatever float [np.mean] returns and do not use the order of the
    additions, except for the propagation of [nan], which every order
    has. *)
Definition sum (a : array) : float := foldl add zero a.

(** [np.mean(a)]: the sum of the elements divided by their number.  On
    an empty array this is [0/0], NumPy's [nan]. *)
Definition mean (a : array) : float := sum a / float_of_nat (length a).

(** Broadcasting of a scalar over an array: [a - s], [a * s], [a / s]. *)
Definition sub_scalar (a : array) (s : float) : array := (λ x, x - s) <$> a.
Definition mul_scalar (a : array) (s : float) : array := (λ x, x * s) <$> a.
Definition div_scalar (a : array) (s : float) : array := (λ x, x / s) <$> a.

(** A 3-D [ndarray] with axes [t, x, y]: a list of planes, a plane a
    list of rows. *)
Abbreviation array3 := (list (list (list float))).

(** [a[t, i, j]], [None] out of range. *)
Definition item3 (a : array3) (t i j : nat) : option float :=
  plane ← a !! t; row ← (plane : list array) !! i; (row : array) !! j.

(** [a / s] on a 3-D array. *)
Definition div_scalar3 (a : array3) (s : float) : array3 :=
  (λ plane : list array, (λ row, div_scalar row s) <$> plane) <$> a.

(** [a[:, i, j]]: the time series at one location. *)
Definition series (a : array3) (loc : nat * nat) : array :=
  omap (λ plane : list array, row ← plane !! loc.1; (row : array) !! loc.2) a.

End np.

(* ===================================================================== *)
(** ** Python exceptions and methods *)
(* ===================================================================== *)

(** The exceptions that occur: [ValueError] is raised by the notebook's
    code, [TypeError] by Python when a call passes a keyword argument
    that the function does not have; [ConfigurationError] and
    [ShapeMismatchError] are the spec's names for a failed default
    resolution and for input fields that do not fit together. *)
Inductive exception : Type :=
  | ValueError (msg : string)
  | ConfigurationError (msg : string)
  | TypeError (msg : string)
  | ShapeMismatchError (msg : string).

(** What [warnings.warn] emits. *)
Inductive warning : Type :=
  | UserWarning (msg : string).

Inductive result (A : Type) : Type :=
  | Ok (a : A)
  | Raise (e : exception).
Arguments Ok {A} a.
Arguments Raise {A} e.

(** A method body: it runs on the object [self] it is bound to and gives
    back a value or an exception together with the object as the body
    leaves it. *)
Definition method (Self A : Type) : Type := Self → result A * Self.

#[export] Instance method_ret {Self} : MRet (method Self) :=
  λ A a self, (Ok a, self).
#[export] Instance method_bind {Self} : MBind (method Self) :=
  λ A B k m self,
    match m self with
    | (Ok a, self') => k a self'
    | (Raise e, self') => (Raise e, self')
    end.
Definition raise {Self A} (e : exception) : method Self A :=
  λ self, (Raise e, self).
(** [self.attr] *)
Definition getattr {Self A} (attr : Self → A) : method Self A :=
  λ self, (Ok (attr self), self).

(** The value a call returns, and the object after the call. *)
Definition returned {Self A} (m : method Self A) (self : Self) : result A :=
  fst (m self).
Definition after {Self A} (m : method Self A) (self : Self) : Self :=
  snd (m self).

(* ===================================================================== *)
(** ** Notebook 04, section 3: the class [LinearScaling] *)
(* ===================================================================== *)

(** The double quote character of the error message. *)
Definition dquote : string := String (Ascii.ascii_of_nat 34) EmptyString.

Module LinearScaling.

(** [@attrs.define(slots=False) class LinearScaling(RunningWindowDebiaser)].
    The class body declares one attribute, [delta_type: str = "additive"];
    every other attribute ([variable] among them) is declared by the base
    classes, outside the notebook, and is kept as the keyword arguments
    the constructor received for it.  Attribute values are strings, the
    only values the notebook passes. *)
Record t : Type := mk {
  delta_type : string;
  inherited : gmap string string;
}.

(** [self.variable]; [None] stands for the default of the base class. *)
Definition variable (self : t) : option string := inherited self !! "variable".

Definition delta_type_error : string :=
  "self.delta_type needs to be one of [" +:+ dquote +:+ "additive" +:+ dquote
    +:+ ", " +:+ dquote +:+ "multiplicative" +:+ dquote +:+ "].".

(** [def apply_on_window(self, obs, cm_hist, cm_future, **kwargs)];
    the keyword arguments are not used by the body. *)
Definition apply_on_window (obs cm_hist cm_future : np.array)
  : method t np.array :=
  d ← getattr delta_type;
  if decide (d = "additive") then
    mret (np.sub_scalar cm_future (np.mean cm_hist - np.mean obs))
  else if decide (d = "multiplicative") then
    mret (np.mul_scalar cm_future (np.mean obs / np.mean cm_hist))
  else
    raise (ValueError delta_type_error).

(** The body of the [__init__] that attrs generates, once the keyword
    arguments of the call are bound to its parameters: every attribute
    is assigned, [delta_type] has the default ["additive"] and no
    validator.  The binding itself, which fails on a keyword that names
    no attribute, and the checks that the base classes run on their own
    attributes are in [call] below. *)
Definition __init__ (kwargs : gmap string string) : t :=
  {| delta_type := default "additive" (kwargs !! "delta_type");
     inherited := delete "delta_type" kwargs |}.

(** The names of the attributes of the class, which are the keyword
    parameters of the generated [__init__]: [delta_type], declared by
    the class body; [variable], which the first cell passes to the
    constructor; and the attributes that the base classes declare
    outside the notebook, [base]. *)
Definition attributes (base : gset string) : gset string :=
  {["delta_type"; "variable"]} ∪ base.

Definition unexpected_keyword : string :=
  "__init__() got an unexpected keyword argument".

(** The call of the class with keyword arguments.  The generated
    [__init__] has one keyword parameter for each attribute and takes no
    other keyword: Python raises [TypeError] for a keyword that names no
    attribute, and no instance is constructed.  The base classes check
    the values of their attributes, and may require some of them; this
    is outside the notebook: [validate] gives the exception that the
    base classes raise on the keyword arguments, if any.  [delta_type]
    has a default and no validator. *)
Definition call (base : gset string)
    (validate : gmap string string → option exception)
    (kwargs : gmap string string) : result t :=
  if decide (dom kwargs ⊆ attributes base) then
    match validate kwargs with
    | Some e => Raise e
    | None => Ok (__init__ kwargs)
    end
  else Raise (TypeError unexpected_keyword).

(** [getattr(self, name)] for an attribute given to the constructor. *)
Definition attribute (self : t) (name : string) : option string :=
  if decide (name = "delta_type") then Some (delta_type self)
  else inherited self !! name.

(** First cell: [def from_variable(cls, variable, delta_type, **kwargs)],
    whose body is [cls(variable = variable, delta_type = delta_type)];
    [kwargs], the dictionary of the remaining keyword arguments, is
    accepted and not used.  The two keywords of the call are attributes
    of the class, whatever the base classes declare, so that the call
    binds them and runs the body of [__init__]; the checks of the base
    classes on [variable] are not modelled here. *)
Definition from_variable (variable delta_type : string)
    (kwargs : gmap string string) : result t :=
  Ok (__init__ (<["variable" := variable]> {["delta_type" := delta_type]})).

End LinearScaling.

(* ===================================================================== *)
(** ** Notebook 04, section 3, second cell: defaults from settings tables *)
(* ===================================================================== *)

(** Modelled from the spec: the objects [tas], [pr], [hurs], [psl] that
    the notebook imports from [ibicus.variables] (spec 3: a variable
    descriptor is an identifier used purely as a lookup key).  A variable
    is identified with its name, the string that [from_variable("psl")]
    passes. *)
Module variables.
Definition tas : string := "tas".
Definition pr : string := "pr".
Definition hurs : string := "hurs".
Definition psl : string := "psl".
End variables.

Module Debiaser.

(** The text of the warning, as the notebook's output records it for
    [psl]. *)
Definition experimental_warning (variable cls_name : string) : string :=
  "The default settings for variable " +:+ variable +:+ " in debiaser "
    +:+ cls_name +:+ " are currently still experimental and may not have"
    +:+ " been evaluated in the peer-reviewed literature. Please review"
    +:+ " the results with care!".

(** Modelled from the spec: the helper [Debiaser._from_variable] of the
    ibicus package, which the notebook calls and does not define (spec
    4.1 and 7).  The identifier is looked up in the vetted table, then
    in the experimental one; a hit in the experimental table alone emits
    one warning; an identifier in neither table is a configuration
    error; the keyword arguments of the caller override the resolved
    defaults key by key, and the class is called with the merged
    parameters as keyword arguments, after the warning if there is one.
    The result of that call comes with the warnings emitted.
    [child_class] is the call of the class, which can raise. *)
Definition _from_variable {T : Type}
    (child_class : gmap string string → result T) (cls_name : string)
    (variable : string)
    (default_settings experimental_default_settings
       : gmap string (gmap string string))
    (kwargs : gmap string string) : result T * list warning :=
  match default_settings !! variable with
  | Some parameters =>
      (child_class (kwargs ∪ <["variable" := variable]> parameters), [])
  | None =>
      match experimental_default_settings !! variable with
      | Some parameters =>
          (child_class (kwargs ∪ <["variable" := variable]> parameters),
           [UserWarning (experimental_warning variable cls_name)])
      | None =>
          (Raise (ConfigurationError
                    ("no default settings exist for the variable " +:+ variable)),
           [])
      end
  end.

End Debiaser.

Module LinearScalingDefaults.

Import variables.

(** [default_settings = {tas: {"delta_type": "additive"},
                         pr: {"delta_type": "multiplicative"},}] *)
Definition default_settings : gmap string (gmap string string) :=
  <[tas := {["delta_type" := "additive"]}]>
    {[pr := {["delta_type" := "multiplicative"]}]}.

(** [experimental_default_settings =
       {hurs: {"delta_type": "multiplicative"}, psl: {"delta_type": "additive"}}] *)
Definition experimental_default_settings : gmap string (gmap string string) :=
  <[hurs := {["delta_type" := "multiplicative"]}]>
    {[psl := {["delta_type" := "additive"]}]}.

(** [def from_variable(cls, variable, **kwargs)], whose body is
    [cls._from_variable(cls, variable, default_settings,
                        experimental_default_settings, **kwargs)].
    [kwargs] is the dictionary of the keyword arguments that are left
    once [variable] is bound: it has no key ["variable"].  [base] and
    [validate] are the attributes and the checks of the base classes, as
    in [LinearScaling.call]. *)
Definition from_variable (base : gset string)
    (validate : gmap string string → option exception)
    (variable : string) (kwargs : gmap string string)
  : result LinearScaling.t * list warning :=
  Debiaser._from_variable (LinearScaling.call base validate) "LinearScaling"
    variable default_settings experimental_default_settings kwargs.

(** The second cell repeats [apply_on_window] word for word. *)
Definition apply_on_window := LinearScaling.apply_on_window.

End LinearScalingDefaults.

(* ===================================================================== *)
(** ** Preprocessing notebook, section 2.4: unit conversion *)
(* ===================================================================== *)

Module preprocessing.

(** The four arrays the notebook holds after section 2.3. *)
Record state : Type := mk {
  cm_hist : np.array3;
  cm_future : np.array3;
  obs_era5 : np.array3;
  obs_ncep_doe : np.array3;
}.

(** The cell of section 2.4: [obs_era5 = obs_era5/86400]. *)
Definition convert_units (nb : state) : state :=
  {| cm_hist := cm_hist nb;
     cm_future := cm_future nb;
     obs_era5 := np.div_scalar3 (obs_era5 nb) 86400;
     obs_ncep_doe := obs_ncep_doe nb |}.

End preprocessing.

(* ===================================================================== *)
(** ** The orchestrator [Debiaser.apply] *)
(* ===================================================================== *)

Module Orchestrator.

Abbreviation location := (nat * nat)%type.

(** Modelled from the spec: the optional DateIndex of each of the three
    fields (spec 3 and 4.4), a sequence of timestamps, one per time
    step; [None] when the caller gives none. *)
Record dates : Type := mk_dates {
  time_obs : option (list string);
  time_cm_hist : option (list string);
  time_cm_future : option (list string);
}.

(** Modelled from the spec: the spatial extents [space_x, space_y] of a
    field (spec 3), read off its first plane and the first row of it.  A
    field without time steps has no plane to read them from; its extents
    count as [0, 0]. *)
Definition extents (field : np.array3) : nat * nat :=
  (length (default [] (head field)),
   length (default [] (head (default [] (head field))))).

(** Modelled from the spec: a field has the spatial extents [xs, ys]
    when each of its planes has [xs] rows of [ys] elements (spec 3). *)
Definition has_extents (xs ys : nat) (field : np.array3) : bool :=
  forallb (λ plane : list np.array,
             Nat.eqb (length plane) xs
             && forallb (λ row : np.array, Nat.eqb (length row) ys) plane)
          field.

(** Modelled from the spec: a date index, when given, has the length of
    the time axis of its field (spec 3). *)
Definition fits (time : option (list string)) (field : np.array3) : bool :=
  match time with
  | None => true
  | Some stamps => Nat.eqb (length stamps) (length field)
  end.

(** Modelled from the spec: the spatial locations of a field with axes
    [t, x, y] (spec 3), row by row. *)
Definition locations (field : np.array3) : list location :=
  match field with
  | [] => []
  | plane :: _ =>
      i ← seq 0 (length plane);
      j ← seq 0 (length (default [] (head plane)));
      [(i, j)]
  end.

Section apply.

(** The processing entry point of the configured method (spec 4.2),
    which takes three series and the date indices as its keyword
    context; the three fields, their date indices, and the flag of the
    partial-failure policy.  The worker count and the [progressbar] flag
    of spec 4.4 do not enter the ResultField and are left out. *)
Context (apply_location
           : np.array → np.array → np.array → dates → result np.array).
Context (obs cm_hist cm_future : np.array3).
Context (time : dates).
Context (failsafe : bool).

(** Modelled from the spec: the check that [Debiaser.apply] makes on its
    inputs (spec 3 and 7): the three fields have the spatial extents of
    the future field, and each date index given has the length of the
    time axis of its field. *)
Definition shapes_match : bool :=
  has_extents (extents cm_future).1 (extents cm_future).2 obs
  && has_extents (extents cm_future).1 (extents cm_future).2 cm_hist
  && has_extents (extents cm_future).1 (extents cm_future).2 cm_future
  && fits (time_obs time) obs
  && fits (time_cm_hist time) cm_hist
  && fits (time_cm_future time) cm_future.

Definition shape_mismatch : string :=
  "the spatial extents of the fields or the lengths of the date indices disagree".

(** Modelled from the spec: one unit of work of [Debiaser.apply], the
    entry point on the three series of one location (spec 4.4). *)
Definition task (loc : location) : result np.array :=
  apply_location (np.series obs loc) (np.series cm_hist loc)
                 (np.series cm_future loc) time.

(** Modelled from the spec: the fill value of a location that failed in
    failsafe mode (spec 4.4), one [nan] per time step of the future
    field. *)
Definition sentinel : np.array := replicate (length cm_future) nan.

(** Modelled from the spec: result collection of [Debiaser.apply], which
    the notebooks call and do not define (spec 4.4 and 7).  The output
    of a unit of work is stored under its spatial index; a failed unit
    stores the sentinel with [failsafe] and aborts the run with its
    error without. *)
Definition collect (acc : result (gmap location np.array)) (loc : location)
  : result (gmap location np.array) :=
  match acc with
  | Raise e => Raise e
  | Ok stored =>
      match task loc with
      | Ok out => Ok (<[loc := out]> stored)
      | Raise e => if failsafe then Ok (<[loc := sentinel]> stored) else Raise e
      end
  end.

(** Modelled from the spec: what a unit of work leaves for its location
    (spec 4.4): its output, the sentinel, or nothing when its failure
    aborts the run. *)
Definition outcome (loc : location) : option np.array :=
  match task loc with
  | Ok out => Some out
  | Raise _ => if failsafe then Some sentinel else None
  end.

(** Modelled from the spec: a run of [Debiaser.apply] in which the units
    of work finish in the given order (spec 4.4 and 5). *)
Definition run (order : list location) : result (gmap location np.array) :=
  foldl collect (Ok ∅) order.

(** Modelled from the spec: assembly of the ResultField (spec 3 and
    4.4), by spatial index: it has the shape of the future field and
    its cell [t, i, j] is the value at time [t] of the output stored for
    location [(i, j)]. *)
Definition assemble (stored : gmap location np.array) : np.array3 :=
  let xs := length (default [] (head cm_future)) in
  let ys := length (default [] (head (default [] (head cm_future)))) in
  (λ t, (λ i, (λ j, default nan (out ← stored !! (i, j); (out : np.array) !! t))
                <$> seq 0 ys) <$> seq 0 xs) <$> seq 0 (length cm_future).

(** Modelled from the spec: the ResultField of a run that ended
    normally; an aborted run has none (spec 4.4). *)
Definition result_field (r : result (gmap location np.array))
  : result np.array3 :=
  match r with
  | Ok stored => Ok (assemble stored)
  | Raise e => Raise e
  end.

(** Modelled from the spec: [Debiaser.apply] (spec 4.4, 5 and 7).  Inputs
    that do not fit together are a [ShapeMismatchError], raised before
    any unit of work starts.  The sequential run visits the locations in
    their order; with [parallel = True] a pool of workers takes the same
    units of work, which finish in an order of their own, [completion]. *)
Definition apply (parallel : bool) (completion : list location)
  : result np.array3 :=
  if shapes_match then
    result_field (run (if parallel then completion else locations cm_future))
  else Raise (ShapeMismatchError shape_mismatch).

End apply.

(** The value a call produced, if it produced one. *)
Definition produced {A} (r : result A) : option A :=
  match r with Ok a => Some a | Raise _ => None end.

End Orchestrator.

(* ===================================================================== *)
(** ** Files: what the notebooks read and write *)
(* ===================================================================== *)

(** What file, archive and network access raise. *)
Inductive io_error : Type :=
  | FileNotFoundError (path : string)
  | FileExistsError (path : string)
  | KeyError (key : string)
  | HTTPError (url : string)
  | OSError (msg : string).

#[export] Instance io_ret : MRet (sum io_error) := λ A a, inr a.
#[export] Instance io_bind : MBind (sum io_error) :=
  λ A B k m, match m with inl e => inl e | inr a => k a end.

(* ===================================================================== *)
(** ** Notebook 04, section 1: [get_data] *)
(* ===================================================================== *)

Module testing_data.

Section get_data.

(** What an entry of an archive holds: an array of values or of dates. *)
Context {V : Type}.

(** [np.load(path, allow_pickle = True)] on the [.npz] archives of a
    disk: an archive maps the names of its entries to them. *)
Definition load (disk : gmap string (gmap string V)) (path : string)
  : io_error + gmap string V :=
  match disk !! path with
  | Some data => inr data
  | None => inl (FileNotFoundError path)
  end.

(** [data[key]] *)
Definition getitem (data : gmap string V) (key : string) : io_error + V :=
  match data !! key with
  | Some entry => inr entry
  | None => inl (KeyError key)
  end.

(** [def get_data(variable, data_path = "testing_data/")]; [None] for
    [data_path] is the default.  The entries are read in the order of
    the [return] statement. *)
Definition get_data (disk : gmap string (gmap string V))
    (variable : string) (data_path : option string)
  : io_error + (V * V * V * gmap string V) :=
  data ← load disk (default "testing_data/" data_path +:+ variable +:+ ".npz");
  obs ← getitem data "obs";
  cm_hist ← getitem data "cm_hist";
  cm_future ← getitem data "cm_future";
  time_obs ← getitem data "time_obs";
  time_cm_hist ← getitem data "time_cm_hist";
  time_cm_future ← getitem data "time_cm_future";
  mret (obs, cm_hist, cm_future,
        <["time_obs" := time_obs]>
          (<["time_cm_hist" := time_cm_hist]>
             {["time_cm_future" := time_cm_future]})).

End get_data.

(** The entries [get_data] reads, in the order it reads them. *)
Definition entries : list string :=
  ["obs"; "cm_hist"; "cm_future"; "time_obs"; "time_cm_hist"; "time_cm_future"].

End testing_data.

(* ===================================================================== *)
(** ** Preprocessing notebook: shapes *)
(* ===================================================================== *)

Module shapes.

(** [a.shape] of a 3-D array, as section 2.3 prints it: the lengths along
    [t], [x] and [y]. *)
Definition shape (a : np.array3) : nat * nat * nat :=
  (length a,
   length (default [] (head a)),
   length (default [] (head (default [] (head a))))).

(** The length of every row of every plane. *)
Definition row_lengths (a : np.array3) : list (list nat) :=
  (λ plane : list np.array, length <$> plane) <$> a.

End shapes.

(* ===================================================================== *)
(** ** Preprocessing notebook, sections 1 and 1.2.2: files on disk *)
(* ===================================================================== *)

Module download.

(** [DATADIR = "data_download_and_preprocessing"] *)
Definition DATADIR : string := "data_download_and_preprocessing".

(** The state of the notebook that these cells read and write: the paths
    that exist on disk, and the variables [variable], [years] and
    [fname_ncep_doe].  [years] is a [map] object, an iterator: it holds
    the items that have not been consumed yet. *)
Record kernel : Type := mk {
  disk : gset string;
  variable : string;
  years : list string;
  fname_ncep_doe : string;
}.



(** [os.remove(path)] *)
Definition remove (path : string) (d : gset string) : io_error + gset string :=
  if decide (path ∈ d) then inr (d ∖ {[path]}) else inl (FileNotFoundError path).

(** Creating or replacing the file [dir/name]: the directory has to
    exist. *)
Definition write (dir name : string) (d : gset string)
  : io_error + gset string :=
  if decide (dir ∈ d) then inr ({[dir +:+ "/" +:+ name]} ∪ d)
  else inl (FileNotFoundError (dir +:+ "/" +:+ name)).

(** [urllib.request.urlretrieve(url, dir/name)]: the URL is opened, then
    the file is written.  [remote] tells the URLs the server answers. *)
Definition urlretrieve (remote : string → bool) (url dir name : string)
    (d : gset string) : io_error + gset string :=
  if remote url then write dir name d else inl (HTTPError url).


(** The settings cell of section 1.2.2:
    [variable = "prate.sfc.gauss"],
    [years = map(str, range(1979, 2005))],
    [fname_ncep_doe = f"ncep_doe_{variable}_1979_2005.nc"]. *)
Definition ncep_settings (k : kernel) : kernel :=
  {| disk := disk k;
     variable := "prate.sfc.gauss";
     years := pretty <$> seq 1979 (2005 - 1979);
     fname_ncep_doe := "ncep_doe_" +:+ "prate.sfc.gauss" +:+ "_1979_2005.nc" |}.

Definition ncep_url (variable year : string) : string :=
  "https://downloads.psl.noaa.gov/Datasets/ncep.reanalysis2/Dailies/gaussian_grid/"
    +:+ variable +:+ "." +:+ year +:+ ".nc".

(** The name in [DATADIR] of the file of one year:
    [f"{variable}_{year}.nc"]. *)
Definition yearly (variable year : string) : string :=
  variable +:+ "_" +:+ year +:+ ".nc".

(** The paths of the yearly files of a list of years. *)
Definition yearly_paths (variable : string) (todo : list string) : list string :=
  (λ year, DATADIR +:+ "/" +:+ yearly variable year) <$> todo.

(** The first loop of the download cell, [for year in years: ...], on the
    items the iterator still holds: it gives the exception, the disk, the
    items left in the iterator and [filenames_for_cleanup]. *)
Fixpoint retrieve_years (remote : string → bool) (variable : string)
    (todo : list string) (d : gset string) (filenames_for_cleanup : list string)
  : option io_error * gset string * list string * list string :=
  match todo with
  | [] => (None, d, [], filenames_for_cleanup)
  | year :: todo =>
      match urlretrieve remote (ncep_url variable year) DATADIR
              (yearly variable year) d with
      | inl e => (Some e, d, todo, filenames_for_cleanup)
      | inr d =>
          retrieve_years remote variable todo d
            (filenames_for_cleanup ++ [DATADIR +:+ "/" +:+ yearly variable year])
      end
  end.

(** [s] without the prefix [p], when it starts with it. *)
Fixpoint strip_prefix (p s : string) : option string :=
  match p, s with
  | EmptyString, _ => Some s
  | String a p, String b s => if Ascii.eqb a b then strip_prefix p s else None
  | String _ _, EmptyString => None
  end.

Fixpoint contains (c : Ascii.ascii) (s : string) : bool :=
  match s with
  | EmptyString => false
  | String a s => Ascii.eqb a c || contains c s
  end.

(** Whether a path matches the pattern [prefix*suffix], the star standing
    for a part of a file name. *)
Definition glob_star (prefix suffix path : string) : bool :=
  match strip_prefix prefix path with
  | Some rest =>
      match strip_prefix (String.rev suffix) (String.rev rest) with
      | Some middle => negb (contains (Ascii.ascii_of_nat 47) middle)
      | None => false
      end
  | None => false
  end.

(** [xarray.open_mfdataset(f"{DATADIR}/{variable}_*.nc", ...)]: the files
    that match the pattern, and an error when there is none. *)
Definition open_mfdataset (variable : string) (d : gset string)
  : io_error + list string :=
  match filter (λ path, glob_star (DATADIR +:+ "/" +:+ variable +:+ "_") ".nc"
                          path = true) (elements d) with
  | [] => inl (OSError "no files to open")
  | paths => inr paths
  end.

(** The last loop, [for filename in filenames_for_cleanup:
    os.remove(filename)]: the exception it ends with, if any, and the
    disk it leaves. *)
Fixpoint cleanup (filenames : list string) (d : gset string)
  : option io_error * gset string :=
  match filenames with
  | [] => (None, d)
  | filename :: filenames =>
      match remove filename d with
      | inl e => (Some e, d)
      | inr d => cleanup filenames d
      end
  end.

(** The download cell of section 1.2.2: the loop over the years, then
    [open_mfdataset], [to_netcdf(f"{DATADIR}/{fname_ncep_doe}")] and the
    cleanup. *)
Definition ncep_download (remote : string → bool) (k : kernel)
  : option io_error * kernel :=
  let '(e, d, rest, filenames_for_cleanup) :=
    retrieve_years remote (variable k) (years k) (disk k) [] in
  let k' d := {| disk := d; variable := variable k; years := rest;
                 fname_ncep_doe := fname_ncep_doe k |} in
  match e with
  | Some e => (Some e, k' d)
  | None =>
      match open_mfdataset (variable k) d with
      | inl e => (Some e, k' d)
      | inr _ =>
          match write DATADIR (fname_ncep_doe k) d with
          | inl e => (Some e, k' d)
          | inr d =>
              let '(e, d) := cleanup filenames_for_cleanup d in (e, k' d)
          end
      end
  end.

End download.

(* ===================================================================== *)
(** * Properties *)
(* ===================================================================== *)

(** ** Facts on binary64 arithmetic

    The primitive operations are specified through [Prim2SF], which reads
    a float as a sign, a mantissa and an exponent, or a special value. *)

Module binary64.

Lemma Prim2SF_zero : Prim2SF 0 = S754_zero false.
Proof. reflexivity. Qed.

Lemma Prim2SF_infinity : Prim2SF infinity = S754_infinity false.
Proof. reflexivity. Qed.

Lemma SFeqb_finite_refl s m e :
  SFeqb (S754_finite s m e) (S754_finite s m e) = true.
Proof.
  unfold SFeqb; simpl.
  destruct s; rewrite Z.compare_refl, Pos.compare_cont_refl; reflexivity.
Qed.

(** [is_finite] in terms of the specification. *)
Lemma is_finite_spec x :
  is_finite x =
    match Prim2SF x with
    | S754_zero _ | S754_finite _ _ _ => true
    | S754_infinity _ | S754_nan => false
    end.
Proof.
  unfold is_finite, is_nan, is_infinity.
  rewrite !FloatAxioms.eqb_spec, abs_spec, Prim2SF_infinity.
  destruct (Prim2SF x) as [s|[]| |s m e]; try reflexivity.
  rewrite SFeqb_finite_refl. reflexivity.
Qed.

Lemma is_nan_spec x :
  is_nan x = match Prim2SF x with S754_nan => true | _ => false end.
Proof.
  unfold is_nan. rewrite FloatAxioms.eqb_spec.
  destruct (Prim2SF x) as [s|[]| |s m e]; try reflexivity.
  by rewrite SFeqb_finite_refl.
Qed.

(** [x == 0.0] holds for the two zeros only. *)
Lemma eqb_zero_spec x :
  (x =? 0) = true → ∃ s, Prim2SF x = S754_zero s.
Proof.
  rewrite FloatAxioms.eqb_spec, Prim2SF_zero.
  destruct (Prim2SF x) as [s|[]| |[] m e]; try discriminate. eauto.
Qed.

(** Subtracting [+0] changes nothing, whatever the float. *)
Lemma sub_zero_r x : x - 0 = x.
Proof.
  apply Prim2SF_inj. rewrite sub_spec, Prim2SF_zero.
  destruct (Prim2SF x) as [[]|[]| |[] m e]; reflexivity.
Qed.

(** A finite float minus itself is [+0]. *)
Lemma sub_diag x : is_finite x = true → x - x = 0.
Proof.
  rewrite is_finite_spec. intros Hfin.
  apply Prim2SF_inj. rewrite sub_spec, Prim2SF_zero.
  destruct (Prim2SF x) as [[]|s| |s m e]; try discriminate; try reflexivity.
  unfold SF64sub, SFsub. cbv zeta. rewrite Z.sub_diag. reflexivity.
Qed.

(** Dividing by a zero gives an infinity or [nan]. *)
Lemma div_zero x z :
  (z =? 0) = true → is_finite (x / z) = false.
Proof.
  intros [s Hz]%eqb_zero_spec.
  rewrite is_finite_spec, div_spec, Hz.
  destruct (Prim2SF x) as [?|?| |? ? ?]; reflexivity.
Qed.

(** A product with an infinity or [nan] is an infinity or [nan]. *)
Lemma mul_not_finite x r :
  is_finite r = false → is_finite (x * r) = false.
Proof.
  rewrite !is_finite_spec, mul_spec.
  destruct (Prim2SF r) as [?|?| |? ? ?]; try discriminate; intros _;
    destruct (Prim2SF x) as [?|?| |? ? ?]; reflexivity.
Qed.

(** Rounding keeps a mantissa that is not negative that way, so that it
    never ends in the [nan] case of its last match. *)
Lemma iter_pos_invariant {A} (P : A → Prop) (f : A → A) :
  (∀ x, P x → P (f x)) → ∀ n x, P x → P (SpecFloat.iter_pos f n x).
Proof.
  intros Hf. induction n as [n IH|n IH|]; intros x Hx; simpl; auto.
Qed.

Lemma shr_1_nonneg mrs : (0 ≤ shr_m mrs)%Z → (0 ≤ shr_m (shr_1 mrs))%Z.
Proof. destruct mrs as [[|[p|p|]|p] r s]; simpl; lia. Qed.

Lemma shr_fexp_nonneg m e l :
  (0 ≤ m)%Z → (0 ≤ shr_m (shr_fexp prec emax m e l).1)%Z.
Proof.
  intros Hm. unfold shr_fexp, shr.
  assert (H0 : (0 ≤ shr_m (shr_record_of_loc m l))%Z)
    by (by destruct l as [|[]]).
  destruct (_ - e)%Z as [|p|p]; simpl; try done.
  by apply iter_pos_invariant; [apply shr_1_nonneg|].
Qed.

Lemma round_nearest_even_nonneg m l :
  (0 ≤ m)%Z → (0 ≤ round_nearest_even m l)%Z.
Proof.
  intros Hm. destruct l as [|[]]; simpl; try destruct (Z.even m); lia.
Qed.

Lemma binary_round_aux_not_nan s m e l :
  (0 ≤ m)%Z → binary_round_aux prec emax s m e l ≠ S754_nan.
Proof.
  intros Hm. unfold binary_round_aux.
  pose proof (shr_fexp_nonneg m e l Hm) as H1.
  destruct (shr_fexp prec emax m e l) as [mrs' e'].
  pose proof (shr_fexp_nonneg _ e' loc_Exact
                (round_nearest_even_nonneg _ (loc_of_shr_record mrs') H1)) as H2.
  destruct (shr_fexp prec emax _ e' loc_Exact) as [mrs'' e'']. simpl in H2.
  destruct (shr_m mrs'') as [|p|p]; [done| |lia].
  by destruct (_ <=? _)%Z.
Qed.

Lemma SFdiv_finite_not_nan sx mx ex sy my ey :
  SF64div (S754_finite sx mx ex) (S754_finite sy my ey) ≠ S754_nan.
Proof.
  unfold SF64div, SFdiv, SFdiv_core_binary. cbv zeta.
  match goal with |- context [Z.div_eucl ?a ?b] =>
    set (m' := a); pose proof (Z.div_pos m' b) as Hq; unfold Z.div in Hq;
    destruct (Z.div_eucl m' b) as [q r] end.
  apply binary_round_aux_not_nan, Hq; [|done].
  unfold m'. destruct (_ - _ - _)%Z; try done. by apply Z.shiftl_nonneg.
Qed.

(** The quotient of two finite floats is a number when the divisor is
    not a zero: it may round to a zero or overflow to an infinity, and
    is never [nan]. *)
Lemma div_not_nan x y :
  is_finite x = true → is_finite y = true → (y =? 0) = false →
  is_nan (x / y) = false.
Proof.
  rewrite !is_finite_spec, is_nan_spec, div_spec, FloatAxioms.eqb_spec,
    Prim2SF_zero.
  destruct (Prim2SF x) as [sx|sx| |sx mx ex]; try discriminate; intros _;
    destruct (Prim2SF y) as [sy|sy| |sy my ey]; try discriminate;
    intros _ _; try reflexivity.
  pose proof (SFdiv_finite_not_nan sx mx ex sy my ey) as H.
  by destruct (SF64div _ _).
Qed.

(** The two zeros. *)
Lemma Prim2SF_neg_zero : Prim2SF neg_zero = S754_zero true.
Proof. reflexivity. Qed.

Lemma zero_of_sign x s :
  Prim2SF x = S754_zero s → x = if s then neg_zero else 0.
Proof. intros H. apply Prim2SF_inj. rewrite H. by destruct s. Qed.

Lemma zero_neq_neg_zero : (0 : float) ≠ neg_zero.
Proof. intros H. apply (f_equal Prim2SF) in H. discriminate H. Qed.

(** [x == y] on a finite [y]: the two are the same float, or they are
    two zeros, of whatever signs. *)
Lemma eqb_finite x y :
  (x =? y) = true → is_finite y = true →
  x = y ∨ ∃ s s', Prim2SF x = S754_zero s ∧ Prim2SF y = S754_zero s'.
Proof.
  rewrite FloatAxioms.eqb_spec, is_finite_spec. intros Heq Hfin.
  destruct (Prim2SF x) as [s|s| |s m e] eqn:Hx,
           (Prim2SF y) as [s'|s'| |s' m' e'] eqn:Hy;
    try discriminate; try (by destruct s, s'); [right; eauto|left].
  apply Prim2SF_inj. rewrite Hx, Hy.
  unfold SFeqb, SFcompare in Heq.
  destruct s, s'; try discriminate;
    destruct (e ?= e')%Z eqn:He; try discriminate;
    apply Z.compare_eq in He as ->;
    destruct (Pos.compare_cont Eq m m') eqn:Hm; try discriminate;
    apply Pos.compare_eq in Hm as ->; reflexivity.
Qed.

(** Subtracting [-0] changes [-0] into [+0] and no other float. *)
Lemma sub_neg_zero_r x : x ≠ neg_zero → x - neg_zero = x.
Proof.
  intros Hx. apply Prim2SF_inj. rewrite sub_spec, Prim2SF_neg_zero.
  destruct (Prim2SF x) as [[]|[]| |[] m e] eqn:E; try reflexivity.
  destruct Hx. by apply (zero_of_sign x true).
Qed.

Lemma sub_neg_zero_diag : neg_zero - neg_zero = 0.
Proof. reflexivity. Qed.

(** The difference [h - o] of two floats with [o == h], [h] finite: it
    is [+0], except for [h = -0] and [o = +0], where it is [-0]. *)
Lemma sub_eqb_finite h o :
  (o =? h) = true → is_finite h = true →
  h - o = 0 ∧ ¬ (h = neg_zero ∧ o = 0)
  ∨ h - o = neg_zero ∧ h = neg_zero ∧ o = 0.
Proof.
  intros Heq Hfin.
  destruct (eqb_finite o h Heq Hfin) as [->|(s & s' & Ho & Hh)].
  - left. split; [by apply sub_diag|].
    intros [-> H]. by apply zero_neq_neg_zero.
  - apply zero_of_sign in Ho, Hh. subst.
    destruct s, s'; [left|left|right|left]; (split; [reflexivity|]);
      try (intros [H1 H2]); try done;
      try (by apply zero_neq_neg_zero);
      try (by apply zero_neq_neg_zero; symmetry).
Qed.

End binary64.

(** ** [LinearScaling.apply_on_window], branch by branch *)

Section apply_on_window.

Import LinearScaling.

Variables (self : t) (obs cm_hist cm_future : np.array).

Lemma apply_on_window_additive :
  delta_type self = "additive" →
  apply_on_window obs cm_hist cm_future self
  = (Ok (np.sub_scalar cm_future (np.mean cm_hist - np.mean obs)), self).
Proof.
  intros Hd. unfold apply_on_window, mbind, method_bind, getattr.
  rewrite Hd. reflexivity.
Qed.

Lemma apply_on_window_multiplicative :
  delta_type self = "multiplicative" →
  apply_on_window obs cm_hist cm_future self
  = (Ok (np.mul_scalar cm_future (np.mean obs / np.mean cm_hist)), self).
Proof.
  intros Hd. unfold apply_on_window, mbind, method_bind, getattr.
  rewrite Hd. reflexivity.
Qed.

Lemma apply_on_window_other :
  delta_type self ≠ "additive" → delta_type self ≠ "multiplicative" →
  apply_on_window obs cm_hist cm_future self
  = (Raise (ValueError delta_type_error), self).
Proof.
  intros Ha Hm. unfold apply_on_window, mbind, method_bind, getattr.
  destruct (decide (delta_type self = "additive")) as [|_]; [done|].
  destruct (decide (delta_type self = "multiplicative")) as [|_]; done.
Qed.

(** No branch assigns to [self]. *)
Lemma apply_on_window_after :
  after (apply_on_window obs cm_hist cm_future) self = self.
Proof.
  unfold after, apply_on_window, mbind, method_bind, getattr.
  repeat case_decide; reflexivity.
Qed.

End apply_on_window.

(** ** The additive branch *)

(** C1: with [delta_type = "additive"], [apply_on_window] on
    [obs = [1,1,1]], [cm_hist = [2,2,2]], [cm_future = [5,5,5]] returns
    [[4,4,4]]; on any inputs it returns [cm_future] with
    [mean(cm_hist) - mean(obs)] subtracted from every element. *)
Theorem additive_apply_on_window :
  ∀ self : LinearScaling.t,
    LinearScaling.delta_type self = "additive" →
    returned (LinearScaling.apply_on_window [1; 1; 1] [2; 2; 2] [5; 5; 5]) self
    = Ok [4; 4; 4]
    ∧ ∀ obs cm_hist cm_future : np.array,
        returned (LinearScaling.apply_on_window obs cm_hist cm_future) self
        = Ok ((λ x, x - (np.mean cm_hist - np.mean obs)) <$> cm_future).
Proof.
  intros self Hd. split; [|intros obs cm_hist cm_future];
    unfold returned; rewrite apply_on_window_additive by done; reflexivity.
Qed.

Lemma additive_apply_on_window_witness :
  LinearScaling.delta_type (LinearScaling.mk "additive" {["variable" := "tas"]})
  = "additive"
  ∧ returned (LinearScaling.apply_on_window [280; 281] [282; 284] [284; 285.5])
             (LinearScaling.mk "additive" {["variable" := "tas"]})
    = Ok [281.5; 283].
Proof.
  split; [reflexivity|].
  exact (proj2 (additive_apply_on_window
                  (LinearScaling.mk "additive" {["variable" := "tas"]}) eq_refl)
               [280; 281] [282; 284] [284; 285.5]).
Defined.

(** C10, as stated, fails when the common mean is not finite: the sums
    of two and of three times the finite value [2^1023] overflow, both
    means are [inf], the correction term [inf - inf] is [nan] and so is
    every output. *)
Lemma additive_equal_means_overflow :
  np.mean [0x1p1023; 0x1p1023] = np.mean [0x1p1023; 0x1p1023; 0x1p1023]
  ∧ (np.mean [0x1p1023; 0x1p1023] =? np.mean [0x1p1023; 0x1p1023; 0x1p1023])
    = true
  ∧ returned (LinearScaling.apply_on_window
                [0x1p1023; 0x1p1023] [0x1p1023; 0x1p1023; 0x1p1023] [5])
             (LinearScaling.mk "additive" ∅)
    = Ok [nan]
  ∧ returned (LinearScaling.apply_on_window
                [0x1p1023; 0x1p1023] [0x1p1023; 0x1p1023; 0x1p1023] [5])
             (LinearScaling.mk "additive" ∅)
    ≠ Ok [5].
Proof.
  repeat split; try (vm_compute; reflexivity).
  intros H.
  apply (f_equal (λ r, match r with Ok [x] => is_nan x | _ => false end)) in H.
  vm_compute in H. discriminate H.
Qed.

(** With [==], the means [+0] and [-0] are equal.  The mean of
    [[-2^-1074, 0, 0]] underflows to [-0], that of [[0]] is [+0]; the
    correction term is [-0], and the element [-0] comes back as [+0],
    the element [5] as it is. *)
Example additive_signed_zero_means :
  np.mean [0] = 0
  ∧ np.mean [-0x1p-1074; 0; 0] = neg_zero
  ∧ (np.mean [0] =? np.mean [-0x1p-1074; 0; 0]) = true
  ∧ returned (LinearScaling.apply_on_window
                [0] [-0x1p-1074; 0; 0] [neg_zero; 5])
             (LinearScaling.mk "additive" ∅)
    = Ok [0; 5].
Proof. repeat split; vm_compute; reflexivity. Qed.

(** C10 (amended): when [mean(obs) == mean(cm_hist)] and that mean is
    finite, the additive [apply_on_window] returns an array of the
    length of [cm_future] with every element unchanged, but for one
    case: when [mean(cm_hist)] is [-0] and [mean(obs)] is [+0], the
    correction term is [-0] and an element [-0] is returned as [+0].  In
    particular [cm_future] itself is returned unless the two means are
    these zeros. *)
Theorem additive_equal_means_identity
    (self : LinearScaling.t) (obs cm_hist cm_future : np.array) :
  LinearScaling.delta_type self = "additive" →
  (np.mean obs =? np.mean cm_hist) = true →
  is_finite (np.mean cm_hist) = true →
  ∃ out : np.array,
    returned (LinearScaling.apply_on_window obs cm_hist cm_future) self = Ok out
    ∧ length out = length cm_future
    ∧ (∀ i x, cm_future !! i = Some x →
         (x = neg_zero ∧ np.mean cm_hist = neg_zero ∧ np.mean obs = 0
          ∧ out !! i = Some 0)
         ∨ (¬ (x = neg_zero ∧ np.mean cm_hist = neg_zero ∧ np.mean obs = 0)
            ∧ out !! i = Some x))
    ∧ (¬ (np.mean cm_hist = neg_zero ∧ np.mean obs = 0) → out = cm_future).
Proof.
  intros Hd Heq Hfin. unfold returned.
  rewrite apply_on_window_additive by done. cbn [fst].
  eexists. split; [reflexivity|]. unfold np.sub_scalar.
  split; [apply length_fmap|].
  destruct (binary64.sub_eqb_finite _ _ Heq Hfin)
    as [[-> Hne]|(-> & Hh & Ho)].
  - split.
    + intros i x Hx. right. split; [tauto|].
      rewrite list_lookup_fmap, Hx. cbn [fmap option_fmap option_map].
      by rewrite binary64.sub_zero_r.
    + intros _. rewrite <- (list_fmap_id cm_future) at 2.
      apply list_fmap_ext. intros _ x _. apply binary64.sub_zero_r.
  - split; [|tauto].
    intros i x Hx. rewrite list_lookup_fmap, Hx. cbn [fmap option_fmap option_map].
    destruct (Prim2SF x) as [[]|s| |s m e] eqn:E.
    + left. apply (binary64.zero_of_sign x true) in E as ->. done.
    + right. split; [|by rewrite binary64.sub_neg_zero_r
                        by (intros ->; discriminate E)].
      intros (-> & _). discriminate E.
    + right. split; [|by rewrite binary64.sub_neg_zero_r
                        by (intros ->; discriminate E)].
      intros (-> & _). discriminate E.
    + right. split; [|by rewrite binary64.sub_neg_zero_r
                        by (intros ->; discriminate E)].
      intros (-> & _). discriminate E.
    + right. split; [|by rewrite binary64.sub_neg_zero_r
                        by (intros ->; discriminate E)].
      intros (-> & _). discriminate E.
Qed.

Lemma additive_equal_means_identity_witness :
  ∃ out : np.array,
    returned (LinearScaling.apply_on_window
                [0] [-0x1p-1074; 0; 0] [neg_zero; 5; nan; infinity])
             (LinearScaling.mk "additive" ∅)
    = Ok out
    ∧ length out = length [neg_zero; 5; nan; infinity]
    ∧ (∀ i x, [neg_zero; 5; nan; infinity] !! i = Some x →
         (x = neg_zero ∧ np.mean [-0x1p-1074; 0; 0] = neg_zero
          ∧ np.mean [0] = 0 ∧ out !! i = Some 0)
         ∨ (¬ (x = neg_zero ∧ np.mean [-0x1p-1074; 0; 0] = neg_zero
               ∧ np.mean [0] = 0)
            ∧ out !! i = Some x))
    ∧ (¬ (np.mean [-0x1p-1074; 0; 0] = neg_zero ∧ np.mean [0] = 0) →
       out = [neg_zero; 5; nan; infinity]).
Proof.
  apply (additive_equal_means_identity (LinearScaling.mk "additive" ∅)
           [0] [-0x1p-1074; 0; 0] [neg_zero; 5; nan; infinity]);
    vm_compute; reflexivity.
Defined.

(** ** Shape of the output *)

(** C5: for 1-D inputs and [delta_type] one of ["additive"] and
    ["multiplicative"], [apply_on_window] returns an array with as many
    elements as [cm_future]. *)
Theorem apply_on_window_length
    (self : LinearScaling.t) (obs cm_hist cm_future : np.array) :
  LinearScaling.delta_type self = "additive"
  ∨ LinearScaling.delta_type self = "multiplicative" →
  ∃ out : np.array,
    returned (LinearScaling.apply_on_window obs cm_hist cm_future) self = Ok out
    ∧ length out = length cm_future.
Proof.
  intros [Hd|Hd]; unfold returned.
  - rewrite apply_on_window_additive by done.
    eexists; split; [reflexivity|]. apply length_fmap.
  - rewrite apply_on_window_multiplicative by done.
    eexists; split; [reflexivity|]. apply length_fmap.
Qed.

Lemma apply_on_window_length_witness :
  ∃ out : np.array,
    returned (LinearScaling.apply_on_window [1; 2] [3; 4; 5] [6; 7; 8; 9])
             (LinearScaling.mk "multiplicative" ∅) = Ok out
    ∧ length out = 4%nat.
Proof.
  apply (apply_on_window_length (LinearScaling.mk "multiplicative" ∅)
           [1; 2] [3; 4; 5] [6; 7; 8; 9]).
  right. reflexivity.
Defined.

(** ** No hidden state *)

(** C6: a call of [apply_on_window] leaves the object as it was (so its
    [delta_type] and [variable] too), and a second call on the same
    inputs returns what the first returned; this holds for every
    [delta_type], the invalid ones included. *)
Theorem apply_on_window_twice
    (self : LinearScaling.t) (obs cm_hist cm_future : np.array) :
  returned (LinearScaling.apply_on_window obs cm_hist cm_future)
           (after (LinearScaling.apply_on_window obs cm_hist cm_future) self)
  = returned (LinearScaling.apply_on_window obs cm_hist cm_future) self
  ∧ after (LinearScaling.apply_on_window obs cm_hist cm_future)
          (after (LinearScaling.apply_on_window obs cm_hist cm_future) self)
    = self
  ∧ LinearScaling.delta_type
      (after (LinearScaling.apply_on_window obs cm_hist cm_future) self)
    = LinearScaling.delta_type self
  ∧ LinearScaling.variable
      (after (LinearScaling.apply_on_window obs cm_hist cm_future) self)
    = LinearScaling.variable self.
Proof. rewrite !apply_on_window_after. done. Qed.

(** ** The multiplicative branch *)

(** C9: with [delta_type = "multiplicative"], [apply_on_window] returns
    [cm_future * (mean(obs) / mean(cm_hist))] on all inputs: nothing
    guards the division and the branch that raises is not reached.  When
    [mean(cm_hist)] is zero, as for a historical series of zeros, the
    factor is an infinity or [nan] and no output element is finite; when
    it is not zero and the two means are finite, the factor is not
    [nan]. *)
Theorem multiplicative_apply_on_window
    (self : LinearScaling.t) (obs cm_hist cm_future : np.array) :
  LinearScaling.delta_type self = "multiplicative" →
  returned (LinearScaling.apply_on_window obs cm_hist cm_future) self
  = Ok ((λ x, x * (np.mean obs / np.mean cm_hist)) <$> cm_future)
  ∧ ((np.mean cm_hist =? 0) = true →
     ∀ out, returned (LinearScaling.apply_on_window obs cm_hist cm_future) self
            = Ok out →
       ∀ y, y ∈ out → is_finite y = false)
  ∧ (np.mean [0; 0; 0] =? 0) = true
  ∧ ((np.mean cm_hist =? 0) = false →
     is_finite (np.mean obs) = true → is_finite (np.mean cm_hist) = true →
     is_nan (np.mean obs / np.mean cm_hist) = false).
Proof.
  intros Hd. unfold returned.
  rewrite apply_on_window_multiplicative by done. simpl.
  split; [reflexivity|]. split; [|split; [reflexivity|]].
  - intros Hz out [= <-] y [x [-> _]]%list_elem_of_fmap.
    apply binary64.mul_not_finite, binary64.div_zero, Hz.
  - intros Hnz Hobs Hhist. by apply binary64.div_not_nan.
Qed.

Lemma multiplicative_apply_on_window_witness :
  returned (LinearScaling.apply_on_window [1; 3] [0; 0; 0] [5; 0; -2])
           (LinearScaling.mk "multiplicative" ∅)
  = Ok [infinity; nan; neg_infinity].
Proof.
  exact (proj1 (multiplicative_apply_on_window
                  (LinearScaling.mk "multiplicative" ∅)
                  [1; 3] [0; 0; 0] [5; 0; -2] eq_refl)).
Defined.

(** ** Construction and the transformation kind *)

(** C2, as stated, fails: the class declares [delta_type] without a
    validator, so [from_variable("tas", "quadratic")] returns an instance;
    no error is raised at construction. *)
Lemma invalid_delta_type_is_constructed :
  LinearScaling.from_variable "tas" "quadratic" ∅
  = Ok (LinearScaling.mk "quadratic" {["variable" := "tas"]})
  ∧ ∀ e, LinearScaling.from_variable "tas" "quadratic" ∅ ≠ Raise e.
Proof. split; [vm_compute; reflexivity|]. intros e. discriminate. Qed.

(** C2 (amended): constructing [LinearScaling] with a [delta_type] outside
    {"additive", "multiplicative"} succeeds and gives an instance that
    carries this string; the value is rejected only when
    [apply_on_window] runs, which then raises the [ValueError] of its last
    branch on all inputs. *)
Theorem invalid_delta_type_rejected_on_window
    (variable delta_type : string) (kwargs : gmap string string) :
  delta_type ≠ "additive" → delta_type ≠ "multiplicative" →
  ∃ self,
    LinearScaling.from_variable variable delta_type kwargs = Ok self
    ∧ LinearScaling.delta_type self = delta_type
    ∧ LinearScaling.variable self = Some variable
    ∧ ∀ obs cm_hist cm_future : np.array,
        returned (LinearScaling.apply_on_window obs cm_hist cm_future) self
        = Raise (ValueError LinearScaling.delta_type_error).
Proof.
  intros Ha Hm. eexists. split; [reflexivity|].
  assert (Hd : LinearScaling.delta_type
                 (LinearScaling.__init__
                    (<["variable" := variable]> {["delta_type" := delta_type]}))
               = delta_type).
  { unfold LinearScaling.__init__. simpl.
    rewrite lookup_insert_ne by done. by rewrite lookup_singleton_eq. }
  split; [exact Hd|]. split.
  - unfold LinearScaling.variable, LinearScaling.__init__. simpl.
    rewrite lookup_delete_ne by done. apply lookup_insert_eq.
  - intros obs cm_hist cm_future. unfold returned.
    rewrite apply_on_window_other; [reflexivity|by rewrite Hd..].
Qed.

Lemma invalid_delta_type_rejected_on_window_witness :
  ∃ self,
    LinearScaling.from_variable "tas" "quadratic" ∅ = Ok self
    ∧ LinearScaling.delta_type self = "quadratic"
    ∧ LinearScaling.variable self = Some "tas"
    ∧ ∀ obs cm_hist cm_future : np.array,
        returned (LinearScaling.apply_on_window obs cm_hist cm_future) self
        = Raise (ValueError LinearScaling.delta_type_error).
Proof.
  apply (invalid_delta_type_rejected_on_window "tas" "quadratic" ∅);
    intros H; discriminate H.
Defined.

(** ** Default resolution *)

#[local] Set Warnings "-clear-no-such-hyp".

Section from_variable.

Context {T : Type} (child_class : gmap string string → result T).
Context (cls_name : string).
Context (default_settings experimental_default_settings
           : gmap string (gmap string string)).
Context (variable : string) (kwargs : gmap string string).

Lemma _from_variable_vetted parameters :
  default_settings !! variable = Some parameters →
  Debiaser._from_variable child_class cls_name variable
    default_settings experimental_default_settings kwargs
  = (child_class (kwargs ∪ <["variable" := variable]> parameters), []).
Proof. intros H. unfold Debiaser._from_variable. by rewrite H. Qed.

Lemma _from_variable_experimental parameters :
  default_settings !! variable = None →
  experimental_default_settings !! variable = Some parameters →
  Debiaser._from_variable child_class cls_name variable
    default_settings experimental_default_settings kwargs
  = (child_class (kwargs ∪ <["variable" := variable]> parameters),
     [UserWarning (Debiaser.experimental_warning variable cls_name)]).
Proof. intros H1 H2. unfold Debiaser._from_variable. by rewrite H1, H2. Qed.

End from_variable.

(** The constructor stores every keyword argument under its name. *)
Lemma attribute_init (parameters : gmap string string) name value :
  parameters !! name = Some value →
  LinearScaling.attribute (LinearScaling.__init__ parameters) name = Some value.
Proof.
  intros H. unfold LinearScaling.attribute, LinearScaling.__init__. simpl.
  case_decide as Hn.
  - subst name. by rewrite H.
  - by rewrite lookup_delete_ne.
Qed.

(** When [delta_type] is among the keyword arguments, the attributes of
    the instance are the keyword arguments and nothing else. *)
Lemma attribute_init_all (parameters : gmap string string) d :
  parameters !! "delta_type" = Some d →
  ∀ name, LinearScaling.attribute (LinearScaling.__init__ parameters) name
          = parameters !! name.
Proof.
  intros Hd name. unfold LinearScaling.attribute, LinearScaling.__init__. simpl.
  case_decide as Hn.
  - subst name. by rewrite Hd.
  - by rewrite lookup_delete_ne.
Qed.

(** The call of the class: a keyword that is no attribute is a
    [TypeError]; otherwise the checks of the base classes run, and the
    body of [__init__] after them. *)
Lemma call_attributes base validate (kwargs : gmap string string) :
  dom kwargs ⊆ LinearScaling.attributes base →
  validate kwargs = None →
  LinearScaling.call base validate kwargs = Ok (LinearScaling.__init__ kwargs).
Proof.
  intros H Hv. unfold LinearScaling.call. by rewrite decide_True, Hv.
Qed.



(** The call that the first cell makes binds its two keywords, whatever
    the base classes declare. *)
Lemma call_first_cell base validate (variable delta_type : string) :
  validate (<["variable" := variable]> {["delta_type" := delta_type]}) = None →
  LinearScaling.call base validate
    (<["variable" := variable]> {["delta_type" := delta_type]})
  = LinearScaling.from_variable variable delta_type ∅.
Proof.
  intros Hv. apply call_attributes; [|done]. unfold LinearScaling.attributes.
  rewrite dom_insert_L, dom_singleton_L. set_solver.
Qed.

(** The [from_variable] of the first cell does not resolve defaults: the
    method it configures carries the [delta_type] of the call in place of
    the default of the class, and the further keyword arguments of the
    call are left out. *)
Lemma from_variable_first_cell (variable delta_type : string)
    (kwargs : gmap string string) :
  LinearScaling.from_variable variable delta_type kwargs
  = Ok (LinearScaling.mk delta_type {["variable" := variable]}).
Proof. reflexivity. Qed.

(** The entries of the two settings tables: each holds [delta_type] and
    nothing else. *)
Lemma settings_entry_dom variable (parameters : gmap string string) :
  LinearScalingDefaults.default_settings !! variable = Some parameters
  ∨ LinearScalingDefaults.experimental_default_settings !! variable
    = Some parameters →
  dom parameters = {["delta_type"]} ∧ is_Some (parameters !! "delta_type").
Proof.
  unfold LinearScalingDefaults.default_settings,
    LinearScalingDefaults.experimental_default_settings.
  intros [H|H];
    apply lookup_insert_Some in H as [[_ <-]|[_ [_ <-]%lookup_singleton_Some]];
    (split; [apply dom_singleton_L|by rewrite lookup_singleton_eq]).
Qed.

(** The keyword arguments of the constructor call: the keywords of the
    caller, [variable] and [delta_type]. *)
Lemma dom_merged base variable (kwargs parameters : gmap string string) :
  dom parameters = {["delta_type"]} →
  dom kwargs ⊆ LinearScaling.attributes base
  ↔ dom (kwargs ∪ <["variable" := variable]> parameters)
    ⊆ LinearScaling.attributes base.
Proof.
  intros Hp. unfold LinearScaling.attributes.
  rewrite dom_union_L, dom_insert_L, Hp. set_solver.
Qed.

Section resolved.

Context (base : gset string).
Context (validate : gmap string string → option exception).
Context (variable : string) (kwargs parameters : gmap string string).

(** The variable resolves to the entry [parameters]: in the vetted
    table, or else in the experimental one. *)
Hypothesis resolved :
  LinearScalingDefaults.default_settings !! variable = Some parameters
  ∨ LinearScalingDefaults.default_settings !! variable = None
    ∧ LinearScalingDefaults.experimental_default_settings !! variable
      = Some parameters.

(** What the [from_variable] of the second cell returns for a variable
    of the tables: the result of the constructor call on the merged
    parameters. *)
Lemma from_variable_resolved :
  (LinearScalingDefaults.from_variable base validate variable kwargs).1
  = LinearScaling.call base validate
      (kwargs ∪ <["variable" := variable]> parameters).
Proof.
  unfold LinearScalingDefaults.from_variable.
  destruct resolved as [H|[H1 H2]].
  - by erewrite _from_variable_vetted by done.
  - by erewrite _from_variable_experimental by done.
Qed.

Lemma resolved_entry :
  dom parameters = {["delta_type"]} ∧ is_Some (parameters !! "delta_type").
Proof.
  apply (settings_entry_dom variable). destruct resolved as [?|[_ ?]]; auto.
Qed.

Lemma from_variable_configured :
  dom kwargs ⊆ LinearScaling.attributes base →
  validate (kwargs ∪ <["variable" := variable]> parameters) = None →
  ∃ self,
    (LinearScalingDefaults.from_variable base validate variable kwargs).1
    = Ok self
    ∧ ∀ name, LinearScaling.attribute self name
              = (kwargs ∪ <["variable" := variable]> parameters) !! name.
Proof.
  intros Hdom Hvalid. destruct resolved_entry as [Hp [d Hd]].
  rewrite from_variable_resolved.
  rewrite call_attributes by (by try apply dom_merged).
  eexists. split; [reflexivity|].
  destruct (kwargs !! "delta_type") as [d'|] eqn:Hk.
  - apply (attribute_init_all _ d'). by apply lookup_union_Some_l.
  - apply (attribute_init_all _ d).
    rewrite lookup_union_r by done. by rewrite lookup_insert_ne.
Qed.



End resolved.




(** C4: resolving a variable of the vetted table emits no warning;
    resolving a variable found in the experimental table only emits one
    warning, the experimental-defaults one.  The warning does not block
    the construction: in both cases the call returns what the
    constructor returns on the merged parameters, and when the
    constructor accepts the keyword arguments, that is an instance whose
    attributes are the keyword arguments of the caller, [variable], and
    the entry of the table for what the caller does not give. *)
Theorem from_variable_warnings
    (base : gset string) (validate : gmap string string → option exception)
    (variable : string) (kwargs parameters : gmap string string) :
  kwargs !! "variable" = None →
  (LinearScalingDefaults.default_settings !! variable = Some parameters →
   (LinearScalingDefaults.from_variable base validate variable kwargs).2 = []
   ∧ (LinearScalingDefaults.from_variable base validate variable kwargs).1
     = LinearScaling.call base validate
         (kwargs ∪ <["variable" := variable]> parameters)
   ∧ (dom kwargs ⊆ LinearScaling.attributes base →
      validate (kwargs ∪ <["variable" := variable]> parameters) = None →
      ∃ self,
        (LinearScalingDefaults.from_variable base validate variable kwargs).1
        = Ok self
        ∧ ∀ name, LinearScaling.attribute self name
                  = (kwargs ∪ <["variable" := variable]> parameters) !! name))
  ∧ (LinearScalingDefaults.default_settings !! variable = None →
     LinearScalingDefaults.experimental_default_settings !! variable
     = Some parameters →
     (LinearScalingDefaults.from_variable base validate variable kwargs).2
     = [UserWarning (Debiaser.experimental_warning variable "LinearScaling")]
     ∧ (LinearScalingDefaults.from_variable base validate variable kwargs).1
       = LinearScaling.call base validate
           (kwargs ∪ <["variable" := variable]> parameters)
     ∧ (dom kwargs ⊆ LinearScaling.attributes base →
        validate (kwargs ∪ <["variable" := variable]> parameters) = None →
        ∃ self,
          (LinearScalingDefaults.from_variable base validate variable kwargs).1
          = Ok self
          ∧ ∀ name, LinearScaling.attribute self name
                    = (kwargs ∪ <["variable" := variable]> parameters) !! name)).
Proof.
  intros _. split.
  - intros Hd. split; [|split].
    + unfold LinearScalingDefaults.from_variable.
      by erewrite _from_variable_vetted by done.
    + apply from_variable_resolved. by left.
    + apply from_variable_configured. by left.
  - intros Hd He. split; [|split].
    + unfold LinearScalingDefaults.from_variable.
      by erewrite _from_variable_experimental by done.
    + apply from_variable_resolved. by right.
    + apply from_variable_configured. by right.
Qed.

Lemma from_variable_warnings_witness :
  ((LinearScalingDefaults.from_variable ∅ (λ _, None) "tas" ∅).2 = []
   ∧ ∃ self,
       (LinearScalingDefaults.from_variable ∅ (λ _, None) "tas" ∅).1 = Ok self
       ∧ ∀ name, LinearScaling.attribute self name
                 = ((∅ : gmap string string)
                    ∪ <["variable" := "tas"]> {["delta_type" := "additive"]})
                   !! name)
  ∧ ((LinearScalingDefaults.from_variable ∅ (λ _, None) "psl" ∅).2
     = [UserWarning (Debiaser.experimental_warning "psl" "LinearScaling")]
     ∧ ∃ self,
         (LinearScalingDefaults.from_variable ∅ (λ _, None) "psl" ∅).1 = Ok self
         ∧ ∀ name, LinearScaling.attribute self name
                   = ((∅ : gmap string string)
                      ∪ <["variable" := "psl"]> {["delta_type" := "additive"]})
                     !! name).
Proof.
  split.
  - destruct (from_variable_warnings ∅ (λ _, None) "tas" ∅
                {["delta_type" := "additive"]})
      as [Hvetted _]; [vm_compute; reflexivity|].
    destruct Hvetted as (Hw & _ & Hself); [vm_compute; reflexivity|].
    split; [exact Hw|]. apply Hself; [|reflexivity].
    apply (bool_decide_unpack _). vm_compute. reflexivity.
  - destruct (from_variable_warnings ∅ (λ _, None) "psl" ∅
                {["delta_type" := "additive"]})
      as [_ Hexperimental]; [vm_compute; reflexivity|].
    destruct Hexperimental as (Hw & _ & Hself); [vm_compute; reflexivity..|].
    split; [exact Hw|]. apply Hself; [|reflexivity].
    apply (bool_decide_unpack _). vm_compute. reflexivity.
Defined.

(** ** The unit conversion of the preprocessing notebook *)

Lemma item3_div_scalar3 (a : np.array3) (s : float) t i j :
  np.item3 (np.div_scalar3 a s) t i j = (λ x, x / s) <$> np.item3 a t i j.
Proof.
  unfold np.item3, np.div_scalar3, np.div_scalar.
  rewrite list_lookup_fmap. destruct (a !! t) as [plane|]; [simpl|done].
  rewrite list_lookup_fmap. destruct (plane !! i) as [row|]; [simpl|done].
  by rewrite list_lookup_fmap.
Qed.

(** C8: the conversion cell divides every element of [obs_era5] by the
    constant 86400 and leaves [cm_hist], [cm_future] and the NCEP/DOE
    observations as they are. *)
Theorem convert_units_era5_only (nb : preprocessing.state) :
  (∀ t i j,
     np.item3 (preprocessing.obs_era5 (preprocessing.convert_units nb)) t i j
     = (λ x, x / 86400) <$> np.item3 (preprocessing.obs_era5 nb) t i j)
  ∧ preprocessing.cm_hist (preprocessing.convert_units nb)
    = preprocessing.cm_hist nb
  ∧ preprocessing.cm_future (preprocessing.convert_units nb)
    = preprocessing.cm_future nb
  ∧ preprocessing.obs_ncep_doe (preprocessing.convert_units nb)
    = preprocessing.obs_ncep_doe nb.
Proof.
  split; [|done]. intros t i j. apply item3_div_scalar3.
Qed.

Example convert_units_scenario :
  preprocessing.obs_era5
    (preprocessing.convert_units
       (preprocessing.mk [[[1]]] [[[2]]] [[[86400; 43200]; [0; 21600]]] [[[3]]]))
  = [[[1; 0.5]; [0; 0.25]]].
Proof. vm_compute. reflexivity. Qed.

(** ** Sequential and parallel runs of the orchestrator *)

Section parallel.

Import Orchestrator.

Context (apply_location
           : np.array → np.array → np.array → dates → result np.array).
Context (obs cm_hist cm_future : np.array3) (time : dates) (failsafe : bool).

#[local] Abbreviation collect :=
  (collect apply_location obs cm_hist cm_future time failsafe).
#[local] Abbreviation outcome :=
  (outcome apply_location obs cm_hist cm_future time failsafe).
#[local] Abbreviation run :=
  (run apply_location obs cm_hist cm_future time failsafe).

Lemma collect_outcome stored loc :
  collect (Ok stored) loc
  = match outcome loc with
    | Some out => Ok (<[loc := out]> stored)
    | None => match task apply_location obs cm_hist cm_future time loc with
              | Raise e => Raise e
              | Ok out => Ok (<[loc := out]> stored)
              end
    end.
Proof.
  unfold Orchestrator.collect, Orchestrator.outcome.
  destruct (task _ _ _ _ _ loc), failsafe; reflexivity.
Qed.

Lemma foldl_collect_Raise e order : foldl collect (Raise e) order = Raise e.
Proof. induction order as [|loc order IH]; [done|]. exact IH. Qed.

(** When every unit of work leaves something, the run stores under each
    location of [order] what its unit left, whatever the order. *)
Lemma foldl_collect_Ok order : ∀ stored,
  Forall (λ loc, is_Some (outcome loc)) order →
  ∃ stored', foldl collect (Ok stored) order = Ok stored'
    ∧ ∀ loc, stored' !! loc
             = if decide (loc ∈ order) then outcome loc else stored !! loc.
Proof.
  induction order as [|loc0 order IH]; intros stored Hall.
  - exists stored. split; [done|]. intros loc.
    case_decide as Hin; [by apply elem_of_nil in Hin|done].
  - apply Forall_cons in Hall as [[out Hout] Hall]. cbn [foldl].
    rewrite collect_outcome, Hout.
    destruct (IH (<[loc0 := out]> stored) Hall) as (stored' & Hrun & Hlook).
    exists stored'. split; [done|]. intros loc. rewrite Hlook.
    destruct (decide (loc ∈ order)) as [Hin|Hin].
    + rewrite decide_True by (by right). done.
    + destruct (decide (loc = loc0)) as [->|Hne].
      * rewrite decide_True by left. by rewrite lookup_insert_eq.
      * rewrite decide_False; [by rewrite lookup_insert_ne|].
        by intros [?|?]%elem_of_cons.
Qed.

(** A unit of work that leaves nothing aborts the run. *)
Lemma foldl_collect_abort order : ∀ stored,
  Exists (λ loc, outcome loc = None) order →
  ∃ e, foldl collect (Ok stored) order = Raise e.
Proof.
  induction order as [|loc0 order IH]; intros stored Hex.
  - by apply Exists_nil in Hex.
  - cbn [foldl]. rewrite collect_outcome.
    destruct (outcome loc0) as [out|] eqn:Hout.
    + apply IH. apply Exists_cons in Hex as [Hex|Hex]; [congruence|done].
    + unfold Orchestrator.outcome in Hout.
      destruct (task _ _ _ _ _ loc0) as [out|e]; [done|].
      exists e. apply foldl_collect_Raise.
Qed.

Lemma produced_run_permutation order1 order2 :
  order1 ≡ₚ order2 → produced (run order1) = produced (run order2).
Proof.
  intros Hperm. unfold Orchestrator.run.
  destruct (decide (Forall (λ loc, is_Some (outcome loc)) order1)) as [H1|H1].
  - assert (H2 : Forall (λ loc, is_Some (outcome loc)) order2)
      by (by rewrite <- Hperm).
    destruct (foldl_collect_Ok order1 ∅ H1) as (d1 & -> & L1).
    destruct (foldl_collect_Ok order2 ∅ H2) as (d2 & -> & L2).
    simpl. f_equal. apply map_eq. intros loc. rewrite L1, L2.
    destruct (decide (loc ∈ order1)) as [Hin|Hin].
    + rewrite decide_True; [done|]. by rewrite <- Hperm.
    + rewrite decide_False; [done|]. by rewrite <- Hperm.
  - assert (E1 : Exists (λ loc, outcome loc = None) order1).
    { apply not_Forall_Exists in H1; [|apply _].
      eapply Exists_impl; [exact H1|]. simpl. intros loc Hn.
      destruct (outcome loc); [|done]. by destruct Hn. }
    assert (E2 : Exists (λ loc, outcome loc = None) order2)
      by (by rewrite <- Hperm).
    destruct (foldl_collect_abort order1 ∅ E1) as [e1 ->].
    destruct (foldl_collect_abort order2 ∅ E2) as [e2 ->]. done.
Qed.

End parallel.

Lemma elem_of_locations (field : np.array3) i j :
  (i, j) ∈ Orchestrator.locations field →
  i < length (default [] (head field))
  ∧ j < length (default [] (head (default [] (head field)))).
Proof.
  destruct field as [|plane field]; simpl; [by intros ?%elem_of_nil|].
  intros (i' & (j' & Hij & Hj)%list_elem_of_bind & Hi)%list_elem_of_bind.
  apply list_elem_of_ret in Hij as [= <- <-].
  apply elem_of_seq in Hi, Hj. simpl in *. lia.
Qed.

(** In a field with the spatial extents [xs, ys], the series of a
    location within them holds, at each time step, the element of the
    field at that time step and that location. *)
Lemma series_lookup (a : np.array3) xs ys i j t :
  Orchestrator.has_extents xs ys a = true →
  i < xs → j < ys →
  np.series a (i, j) !! t = np.item3 a t i j.
Proof.
  intros Ha Hi Hj. revert t.
  induction a as [|plane a IH]; intros t; [by destruct t|].
  cbn [Orchestrator.has_extents forallb] in Ha.
  apply andb_true_iff in Ha as [Hplane Ha].
  apply andb_true_iff in Hplane as [Hlen Hrows].
  apply Nat.eqb_eq in Hlen.
  destruct (lookup_lt_is_Some_2 plane i) as [row Hrow]; [lia|].
  assert (Hlen' : length row = ys).
  { apply Nat.eqb_eq. rewrite forallb_forall in Hrows. apply Hrows.
    apply list_elem_of_In. by eapply list_elem_of_lookup_2. }
  destruct (lookup_lt_is_Some_2 row j) as [x Hx]; [lia|].
  unfold np.series. cbn [omap list_omap fst snd]. rewrite Hrow. simpl.
  rewrite Hx. destruct t as [|t].
  - unfold np.item3. simpl. rewrite Hrow. simpl. done.
  - exact (IH Ha t).
Qed.

Section assemble.

Import Orchestrator.

Context (apply_location
           : np.array → np.array → np.array → dates → result np.array).
Context (obs cm_hist cm_future : np.array3) (time : dates) (failsafe : bool).

(** A run that ends normally has stored, under each location of
    [order], what its unit of work left. *)
Lemma run_Ok_lookup order stored :
  run apply_location obs cm_hist cm_future time failsafe order = Ok stored →
  ∀ loc, loc ∈ order →
    stored !! loc
    = outcome apply_location obs cm_hist cm_future time failsafe loc.
Proof.
  intros Hrun loc Hin. unfold run in Hrun.
  destruct (decide (Forall (λ loc, is_Some
     (outcome apply_location obs cm_hist cm_future time failsafe loc)) order))
    as [Hall|Hall].
  - destruct (foldl_collect_Ok apply_location obs cm_hist cm_future time
                failsafe order ∅ Hall) as (stored' & Hrun' & Hlook).
    rewrite Hrun' in Hrun. injection Hrun as ->.
    rewrite Hlook. by rewrite decide_True.
  - apply not_Forall_Exists in Hall; [|apply _].
    destruct (foldl_collect_abort apply_location obs cm_hist cm_future time
                failsafe order ∅) as [e He]; [|congruence].
    eapply Exists_impl; [exact Hall|]. simpl. intros l Hn.
    destruct (outcome _ _ _ _ _ _ l); [|done]. by destruct Hn.
Qed.

(** In failsafe mode a run ends normally. *)
Lemma run_failsafe order :
  failsafe = true →
  ∃ stored,
    run apply_location obs cm_hist cm_future time failsafe order = Ok stored.
Proof.
  intros ->.
  destruct (foldl_collect_Ok apply_location obs cm_hist cm_future time
              true order ∅) as (stored & Hrun & _); [|by exists stored].
  apply Forall_forall. intros loc _. unfold outcome.
  destruct (task _ _ _ _ _ loc); eauto.
Qed.

(** The cell [t, i, j] of the assembled field. *)
Lemma item3_assemble stored t i j :
  t < length cm_future →
  i < length (default [] (head cm_future)) →
  j < length (default [] (head (default [] (head cm_future)))) →
  np.item3 (assemble cm_future stored) t i j
  = Some (default nan (out ← stored !! (i, j); (out : np.array) !! t)).
Proof.
  intros Ht Hi Hj. unfold np.item3, assemble.
  rewrite list_lookup_fmap, lookup_seq_lt by done. simpl.
  rewrite list_lookup_fmap, lookup_seq_lt by done. simpl.
  rewrite list_lookup_fmap, lookup_seq_lt by done. done.
Qed.

(** What the check of the inputs establishes. *)
Lemma shapes_match_extents :
  shapes_match obs cm_hist cm_future time = true →
  has_extents (extents cm_future).1 (extents cm_future).2 obs = true
  ∧ has_extents (extents cm_future).1 (extents cm_future).2 cm_hist = true
  ∧ has_extents (extents cm_future).1 (extents cm_future).2 cm_future = true.
Proof.
  unfold shapes_match. rewrite !andb_true_iff. tauto.
Qed.

(** The cell [t, i, j] of the field of a run that ended normally: the
    value at time [t] of what the entry point returns on the series of
    the three fields at [(i, j)], the sentinel when it fails. *)
Lemma item3_run order stored t i j :
  run apply_location obs cm_hist cm_future time failsafe order = Ok stored →
  (i, j) ∈ order →
  t < length cm_future →
  i < length (default [] (head cm_future)) →
  j < length (default [] (head (default [] (head cm_future)))) →
  np.item3 (assemble cm_future stored) t i j
  = Some match apply_location (np.series obs (i, j)) (np.series cm_hist (i, j))
                 (np.series cm_future (i, j)) time with
         | Ok out => default nan (out !! t)
         | Raise _ => nan
         end.
Proof.
  intros Hrun Hin Ht Hi Hj.
  rewrite item3_assemble by done.
  rewrite (run_Ok_lookup _ _ Hrun (i, j) Hin).
  unfold outcome, task. f_equal.
  destruct (apply_location _ _ _ _) as [out|e]; [done|].
  destruct failsafe; [|done]. simpl. unfold sentinel.
  by rewrite lookup_replicate_2.
Qed.

End assemble.

(** C7: when the workers finish the units of work of all locations, in
    whatever order, the parallel run produces the ResultField of the
    sequential run (or fails when the sequential run fails).  Fields or
    date indices that do not fit together make both fail with
    [ShapeMismatchError]; when they fit, the run in failsafe mode always
    produces a field.  The cell [t, i, j] of the field produced holds
    the value at time [t] of what the entry point returns on the three
    series at the source coordinate, the series whose elements are the
    cells [t', i, j] of [obs], of [cm_hist] and of [cm_future]; it holds
    the sentinel when the entry point fails there. *)
Theorem parallel_equivalence
    (apply_location
       : np.array → np.array → np.array → Orchestrator.dates → result np.array)
    (obs cm_hist cm_future : np.array3) (time : Orchestrator.dates)
    (failsafe : bool) (completion : list Orchestrator.location) :
  completion ≡ₚ Orchestrator.locations cm_future →
  Orchestrator.produced
    (Orchestrator.apply apply_location obs cm_hist cm_future time failsafe
       true completion)
  = Orchestrator.produced
      (Orchestrator.apply apply_location obs cm_hist cm_future time failsafe
         false completion)
  ∧ (Orchestrator.shapes_match obs cm_hist cm_future time = false →
     Orchestrator.apply apply_location obs cm_hist cm_future time failsafe
       true completion
     = Raise (ShapeMismatchError Orchestrator.shape_mismatch)
     ∧ Orchestrator.apply apply_location obs cm_hist cm_future time failsafe
         false completion
       = Raise (ShapeMismatchError Orchestrator.shape_mismatch))
  ∧ (failsafe = true →
     Orchestrator.shapes_match obs cm_hist cm_future time = true →
     is_Some (Orchestrator.produced
                (Orchestrator.apply apply_location obs cm_hist cm_future
                   time failsafe true completion)))
  ∧ ∀ field,
      Orchestrator.apply apply_location obs cm_hist cm_future time failsafe
        true completion = Ok field →
      ∀ t i j, t < length cm_future →
        (i, j) ∈ Orchestrator.locations cm_future →
        ∃ series_obs series_cm_hist series_cm_future : np.array,
          (∀ t', series_obs !! t' = np.item3 obs t' i j)
          ∧ (∀ t', series_cm_hist !! t' = np.item3 cm_hist t' i j)
          ∧ (∀ t', series_cm_future !! t' = np.item3 cm_future t' i j)
          ∧ np.item3 field t i j
            = Some match apply_location series_obs series_cm_hist
                           series_cm_future time with
                   | Ok out => default nan (out !! t)
                   | Raise _ => nan
                   end.
Proof.
  intros Hperm. unfold Orchestrator.apply.
  destruct (Orchestrator.shapes_match obs cm_hist cm_future time) eqn:Hshapes;
    [|by repeat split].
  split; [|split; [done|split]].
  - pose proof (produced_run_permutation apply_location obs cm_hist cm_future
                  time failsafe _ _ Hperm) as H.
    destruct (Orchestrator.run _ _ _ _ _ _ completion),
             (Orchestrator.run _ _ _ _ _ _ (Orchestrator.locations cm_future));
      simpl in *; congruence.
  - intros Hf _.
    destruct (run_failsafe apply_location obs cm_hist cm_future time failsafe
                completion Hf) as [stored ->]. simpl. eauto.
  - intros field Hfield t i j Ht Hin.
    destruct (Orchestrator.run _ _ _ _ _ _ completion) as [stored|e] eqn:Hrun;
      [|done].
    injection Hfield as <-.
    destruct (elem_of_locations _ _ _ Hin) as [Hi Hj].
    destruct (shapes_match_extents _ _ _ _ Hshapes) as (Ho & Hh & Hf).
    exists (np.series obs (i, j)), (np.series cm_hist (i, j)),
      (np.series cm_future (i, j)).
    split; [intros t'; by eapply series_lookup|].
    split; [intros t'; by eapply series_lookup|].
    split; [intros t'; by eapply series_lookup|].
    eapply item3_run; [exact Hrun|by rewrite Hperm|done..].
Qed.

Lemma parallel_equivalence_witness :
  Orchestrator.produced
    (Orchestrator.apply
       (λ o h f _, returned (LinearScaling.apply_on_window o h f)
                            (LinearScaling.mk "additive" ∅))
       [[[1; 1]]] [[[2; 3]]] [[[5; 7]]]
       (Orchestrator.mk_dates None None None)
       false true [(0, 1); (0, 0)]%nat)
  = Orchestrator.produced
      (Orchestrator.apply
         (λ o h f _, returned (LinearScaling.apply_on_window o h f)
                              (LinearScaling.mk "additive" ∅))
         [[[1; 1]]] [[[2; 3]]] [[[5; 7]]]
         (Orchestrator.mk_dates None None None)
         false false [(0, 1); (0, 0)]%nat).
Proof.
  apply parallel_equivalence. exact (perm_swap (0, 0)%nat (0, 1)%nat []).
Defined.

Example parallel_scenario :
  Orchestrator.apply
    (λ o h f _, returned (LinearScaling.apply_on_window o h f)
                         (LinearScaling.mk "additive" ∅))
    [[[1; 1]]] [[[2; 3]]] [[[5; 7]]]
    (Orchestrator.mk_dates None None None)
    false true [(0, 1); (0, 0)]%nat
  = Ok [[[4; 5]]].
Proof. vm_compute. reflexivity. Qed.

(** Fields whose spatial extents disagree are refused before any unit of
    work: the entry point, which would fail on every series here, is
    not called, and failsafe mode does not turn the error into a
    field. *)
Example shape_mismatch_scenario :
  Orchestrator.apply
    (λ _ _ _ _, Raise (ValueError "called"))
    [[[1; 1]]] [[[2]]] [[[5; 7]]]
    (Orchestrator.mk_dates None None None)
    true true [(0, 1); (0, 0)]%nat
  = Raise (ShapeMismatchError Orchestrator.shape_mismatch).
Proof. vm_compute. reflexivity. Qed.

Example additive_scenario_from_variable :
  ∃ self,
    LinearScaling.from_variable "tas" "additive" ∅ = Ok self
    ∧ returned (LinearScaling.apply_on_window [1; 1; 1] [2; 2; 2] [5; 5; 5]) self
      = Ok [4; 4; 4].
Proof. eexists. split; vm_compute; reflexivity. Qed.

Example psl_scenario (base : gset string) :
  LinearScalingDefaults.from_variable base (λ _, None) "psl" ∅
  = (Ok (LinearScaling.mk "additive" {["variable" := "psl"]}),
     [UserWarning (Debiaser.experimental_warning "psl" "LinearScaling")]).
Proof.
  unfold LinearScalingDefaults.from_variable.
  rewrite (_from_variable_experimental _ _ _ _ _ _
             {["delta_type" := "additive"]}) by (vm_compute; reflexivity).
  rewrite (left_id_L ∅ (∪)), call_first_cell by done. reflexivity.
Qed.

Example unknown_variable_scenario
    (base : gset string) (validate : gmap string string → option exception) :
  ∃ msg, LinearScalingDefaults.from_variable base validate "sfcwind" ∅
         = (Raise (ConfigurationError msg), []).
Proof. eexists. reflexivity. Qed.

(* ===================================================================== *)
(** * Further properties of the notebooks' code *)
(* ===================================================================== *)

(** ** More facts on binary64 arithmetic *)

Module ieee.

Lemma Prim2SF_nan : Prim2SF nan = S754_nan.
Proof. reflexivity. Qed.

Lemma Prim2SF_one : Prim2SF 1 = S754_finite false 4503599627370496 (-52).
Proof. reflexivity. Qed.

(** [nan] is the one float that [is_nan] holds of. *)
Lemma is_nan_eq x : is_nan x = true → x = nan.
Proof.
  rewrite binary64.is_nan_spec. intros H. apply Prim2SF_inj.
  rewrite Prim2SF_nan. by destruct (Prim2SF x).
Qed.

(** [nan] absorbs the four operations. *)
Lemma add_nan_l y : nan + y = nan.
Proof. apply Prim2SF_inj. by rewrite add_spec, Prim2SF_nan. Qed.

Lemma add_nan_r x : x + nan = nan.
Proof.
  apply Prim2SF_inj. rewrite add_spec, Prim2SF_nan.
  by destruct (Prim2SF x) as [[]|[]| |[] ? ?].
Qed.

Lemma sub_nan_l y : nan - y = nan.
Proof. apply Prim2SF_inj. by rewrite sub_spec, Prim2SF_nan. Qed.

Lemma sub_nan_r x : x - nan = nan.
Proof.
  apply Prim2SF_inj. rewrite sub_spec, Prim2SF_nan.
  by destruct (Prim2SF x) as [[]|[]| |[] ? ?].
Qed.

Lemma mul_nan_r x : x * nan = nan.
Proof.
  apply Prim2SF_inj. rewrite mul_spec, Prim2SF_nan.
  by destruct (Prim2SF x) as [[]|[]| |[] ? ?].
Qed.

Lemma div_nan_l y : nan / y = nan.
Proof. apply Prim2SF_inj. by rewrite div_spec, Prim2SF_nan. Qed.

Lemma div_nan_r x : x / nan = nan.
Proof.
  apply Prim2SF_inj. rewrite div_spec, Prim2SF_nan.
  by destruct (Prim2SF x) as [[]|[]| |[] ? ?].
Qed.

(** A float that [Prim2SF] reads as finite has a canonical mantissa and
    an exponent in range. *)
Lemma Prim2SF_finite_valid x s m e :
  Prim2SF x = S754_finite s m e →
  SpecFloat.fexp prec emax (Z.pos (digits2_pos m) + e) = e
  ∧ (e ≤ emax - prec)%Z.
Proof.
  intros H. pose proof (Prim2SF_valid x) as Hv. rewrite H in Hv.
  unfold SpecFloat.valid_binary, bounded, canonical_mantissa in Hv.
  apply andb_prop in Hv as [H1 H2].
  split; [by apply Z.eqb_eq|by apply Z.leb_le].
Qed.

(** The quotient of a finite number by itself: the mantissas divide
    exactly and the result rounds to [1]. *)
Lemma div_diag_SF s m e :
  SF64div (S754_finite s m e) (S754_finite s m e)
  = S754_finite false 4503599627370496 (-52).
Proof.
  unfold SF64div, SFdiv, SFdiv_core_binary. cbv zeta.
  rewrite !Z.sub_diag.
  change (Z.min (SpecFloat.fexp prec emax 0) 0) with (-53)%Z.
  change (0 - -53)%Z with 53%Z. cbv iota beta.
  rewrite Z.shiftl_mul_pow2 by done.
  assert (Hq : Z.div_eucl (Z.pos m * 2 ^ 53) (Z.pos m) = ((2 ^ 53)%Z, 0%Z)).
  { pose proof (Z.div_mul (2 ^ 53) (Z.pos m)) as Hd.
    pose proof (Z.mod_mul (2 ^ 53) (Z.pos m)) as Hm.
    unfold Z.div, Z.modulo in Hd, Hm. rewrite (Z.mul_comm (Z.pos m)).
    destruct (Z.div_eucl _ _) as [q r]. f_equal; [apply Hd|apply Hm]; lia. }
  rewrite Hq. unfold new_location.
  replace (xorb s s) with false by (by destruct s).
  destruct (Z.even _); vm_compute; reflexivity.
Qed.

Lemma div_diag x : is_finite x = true → (x =? 0) = false → x / x = 1.
Proof.
  rewrite binary64.is_finite_spec, FloatAxioms.eqb_spec, binary64.Prim2SF_zero.
  intros Hf Hz. apply Prim2SF_inj. rewrite div_spec, Prim2SF_one.
  destruct (Prim2SF x) as [s|s| |s m e]; try discriminate.
  apply div_diag_SF.
Qed.

(** The product of a finite number and [1]: the mantissa is shifted by
    52 bits and shifted back without loss. *)
Lemma mul_one_SF s m e :
  SpecFloat.fexp prec emax (Z.pos (digits2_pos m) + e) = e →
  (e ≤ emax - prec)%Z →
  SF64mul (S754_finite s m e) (S754_finite false 4503599627370496 (-52))
  = S754_finite s m e.
Proof.
  intros Hcanon Hmax. unfold SF64mul, SFmul.
  rewrite Bool.xorb_false_r, Pos.mul_comm.
  let t := eval cbv [Pos.mul] in (4503599627370496 * m)%positive in
    change (4503599627370496 * m)%positive with t.
  unfold binary_round_aux, shr_fexp.
  cbn [Zdigits2 digits2_pos shr_record_of_loc].
  replace (Z.pos _ + (e + -52))%Z with (Z.pos (digits2_pos m) + e)%Z by lia.
  rewrite Hcanon.
  replace (e - (e + -52))%Z with 52%Z by lia.
  cbn [shr SpecFloat.iter_pos shr_1 orb].
  cbn [shr_m loc_of_shr_record round_nearest_even Zdigits2].
  replace (e + -52 + 52)%Z with e by lia.
  rewrite Hcanon, Z.sub_diag. cbn [shr shr_m].
  by apply Z.leb_le in Hmax as ->.
Qed.

Lemma mul_one_r y : y * 1 = y.
Proof.
  apply Prim2SF_inj. rewrite mul_spec, Prim2SF_one.
  destruct (Prim2SF y) as [[]|[]| |s m e] eqn:Hy; try reflexivity.
  apply Prim2SF_finite_valid in Hy as [Hc Hm]. by apply mul_one_SF.
Qed.

(** Rounding a mantissa that is not negative gives a zero, a finite
    number or an infinity of the sign asked for. *)
Lemma binary_round_aux_sign s m e l :
  (0 ≤ m)%Z →
  match binary_round_aux prec emax s m e l with
  | S754_zero s' | S754_infinity s' | S754_finite s' _ _ => s' = s
  | S754_nan => False
  end.
Proof.
  intros Hm. unfold binary_round_aux.
  pose proof (binary64.shr_fexp_nonneg m e l Hm) as H1.
  destruct (shr_fexp prec emax m e l) as [mrs' e'].
  pose proof (binary64.shr_fexp_nonneg _ e' loc_Exact
                (binary64.round_nearest_even_nonneg _
                   (loc_of_shr_record mrs') H1)) as H2.
  destruct (shr_fexp prec emax _ e' loc_Exact) as [mrs'' e'']. simpl in H2.
  destruct (shr_m mrs'') as [|p|p]; [done| |lia].
  by destruct (_ <=? _)%Z.
Qed.

Lemma SFdiv_finite_sign sx mx ex sy my ey :
  match SF64div (S754_finite sx mx ex) (S754_finite sy my ey) with
  | S754_zero s' | S754_infinity s' | S754_finite s' _ _ => s' = xorb sx sy
  | S754_nan => False
  end.
Proof.
  unfold SF64div, SFdiv, SFdiv_core_binary. cbv zeta.
  match goal with |- context [Z.div_eucl ?a ?b] =>
    set (m' := a); pose proof (Z.div_pos m' b) as Hq; unfold Z.div in Hq;
    destruct (Z.div_eucl m' b) as [q r] end.
  apply binary_round_aux_sign, Hq; [|done].
  unfold m'. destruct (_ - _ - _)%Z; try done. by apply Z.shiftl_nonneg.
Qed.

(** Division by a positive finite constant keeps [nan] apart from the
    numbers and keeps what is not negative that way. *)
Lemma div_positive_constant x c m e :
  Prim2SF c = S754_finite false m e →
  is_nan (x / c) = is_nan x
  ∧ ((0 <=? x) = true → (0 <=? x / c) = true).
Proof.
  intros Hc. rewrite !binary64.is_nan_spec, !leb_spec, div_spec, Hc,
    binary64.Prim2SF_zero.
  destruct (Prim2SF x) as [[]|[]| |sx mx ex]; try done.
  pose proof (SFdiv_finite_sign sx mx ex false m e) as H.
  rewrite Bool.xorb_false_r in H.
  destruct (SF64div _ _) as [s'|s'| |s' m' e']; try done; subst s';
    by destruct sx.
Qed.

(** A finite number times a zero is a zero; zero over a finite number
    that is not zero is a zero. *)
Lemma mul_zero_r x z :
  is_finite x = true → (z =? 0) = true → (x * z =? 0) = true.
Proof.
  rewrite binary64.is_finite_spec. intros Hx [s Hz]%binary64.eqb_zero_spec.
  rewrite FloatAxioms.eqb_spec, mul_spec, Hz, binary64.Prim2SF_zero.
  by destruct (Prim2SF x) as [?|?| |? ? ?].
Qed.

Lemma div_zero_l z y :
  (z =? 0) = true → is_finite y = true → (y =? 0) = false →
  (z / y =? 0) = true.
Proof.
  intros [s Hz]%binary64.eqb_zero_spec.
  rewrite binary64.is_finite_spec, !FloatAxioms.eqb_spec, div_spec, Hz,
    binary64.Prim2SF_zero.
  by destruct (Prim2SF y) as [?|?| |? ? ?].
Qed.

End ieee.

(** ** [np.mean] and missing values *)

Lemma foldl_add_nan (a : np.array) : foldl add nan a = nan.
Proof.
  induction a as [|x a IH]; [done|]. simpl. by rewrite ieee.add_nan_l.
Qed.

Lemma sum_nan (a : np.array) x :
  x ∈ a → is_nan x = true → np.sum a = nan.
Proof.
  intros (a1 & a2 & ->)%list_elem_of_split ->%ieee.is_nan_eq.
  unfold np.sum. rewrite foldl_app. simpl.
  by rewrite ieee.add_nan_r, foldl_add_nan.
Qed.

(** The mean of an empty array, or of an array that holds a [nan], is
    [nan]. *)
Lemma mean_nan (a : np.array) :
  a = [] ∨ (∃ x, x ∈ a ∧ is_nan x = true) → np.mean a = nan.
Proof.
  intros [->|(x & Hin & Hx)]; [reflexivity|].
  unfold np.mean. by rewrite (sum_nan a x), ieee.div_nan_l.
Qed.

(** ** [apply_on_window] on degenerate series *)

(** X1: when [obs] or [cm_hist] is empty or holds a [nan], both
    transformations return [nan] in every place of the output, without
    an exception. *)
Theorem apply_on_window_missing_values
    (self : LinearScaling.t) (obs cm_hist cm_future : np.array) :
  LinearScaling.delta_type self = "additive"
  ∨ LinearScaling.delta_type self = "multiplicative" →
  obs = [] ∨ cm_hist = []
  ∨ (∃ x, (x ∈ obs ∨ x ∈ cm_hist) ∧ is_nan x = true) →
  returned (LinearScaling.apply_on_window obs cm_hist cm_future) self
  = Ok (replicate (length cm_future) nan).
Proof.
  intros Hd Hmiss.
  assert (Hmean : np.mean obs = nan ∨ np.mean cm_hist = nan).
  { destruct Hmiss as [->|[->|(x & [Hin|Hin] & Hx)]];
      [by left|by right|left|right]; apply mean_nan; eauto. }
  unfold returned. destruct Hd as [Hd|Hd].
  - rewrite apply_on_window_additive by done. cbn [fst]. f_equal.
    apply const_fmap. intros i x _.
    destruct Hmean as [->| ->];
      by rewrite ?ieee.sub_nan_l, !ieee.sub_nan_r.
  - rewrite apply_on_window_multiplicative by done. cbn [fst]. f_equal.
    apply const_fmap. intros i x _.
    destruct Hmean as [->| ->];
      by rewrite ?ieee.div_nan_l, ?ieee.div_nan_r, ieee.mul_nan_r.
Qed.

Lemma apply_on_window_missing_values_witness :
  returned (LinearScaling.apply_on_window [1; nan; 3] [2; 2] [5; 6])
           (LinearScaling.mk "additive" ∅)
  = Ok [nan; nan].
Proof.
  apply (apply_on_window_missing_values (LinearScaling.mk "additive" ∅)
           [1; nan; 3] [2; 2] [5; 6]).
  - left. reflexivity.
  - right. right. exists nan. split; [|reflexivity].
    left. apply list_elem_of_further, list_elem_of_here.
Defined.

(** X2: with [delta_type = "multiplicative"], when [mean(obs)] and
    [mean(cm_hist)] are equal, finite and not zero, the factor is exactly
    [1] and [apply_on_window] returns [cm_future] with every element
    unchanged. *)
Theorem multiplicative_equal_means_identity
    (self : LinearScaling.t) (obs cm_hist cm_future : np.array) :
  LinearScaling.delta_type self = "multiplicative" →
  np.mean obs = np.mean cm_hist →
  is_finite (np.mean cm_hist) = true →
  (np.mean cm_hist =? 0) = false →
  returned (LinearScaling.apply_on_window obs cm_hist cm_future) self
  = Ok cm_future.
Proof.
  intros Hd Heq Hfin Hnz. unfold returned.
  rewrite apply_on_window_multiplicative by done. simpl. f_equal.
  rewrite Heq, ieee.div_diag by done.
  unfold np.mul_scalar. rewrite <- (list_fmap_id cm_future) at 2.
  apply list_fmap_ext. intros _ x _. apply ieee.mul_one_r.
Qed.

Lemma multiplicative_equal_means_identity_witness :
  returned (LinearScaling.apply_on_window [1; 3] [2; 2] [5; -0; nan; 0x1.999999999999ap-4])
           (LinearScaling.mk "multiplicative" ∅)
  = Ok [5; -0; nan; 0x1.999999999999ap-4].
Proof.
  apply multiplicative_equal_means_identity; vm_compute; reflexivity.
Defined.

(** X3: with [delta_type = "multiplicative"], when [mean(obs)] is zero
    and [mean(cm_hist)] is finite and not zero, every finite element of
    [cm_future] is mapped to a zero. *)
Theorem multiplicative_zero_observations
    (self : LinearScaling.t) (obs cm_hist cm_future : np.array) :
  LinearScaling.delta_type self = "multiplicative" →
  (np.mean obs =? 0) = true →
  is_finite (np.mean cm_hist) = true →
  (np.mean cm_hist =? 0) = false →
  ∃ out : np.array,
    returned (LinearScaling.apply_on_window obs cm_hist cm_future) self = Ok out
    ∧ ∀ i x, cm_future !! i = Some x → is_finite x = true →
        ∃ y, out !! i = Some y ∧ (y =? 0) = true.
Proof.
  intros Hd Hobs Hfin Hnz. unfold returned.
  rewrite apply_on_window_multiplicative by done. simpl.
  eexists. split; [reflexivity|]. intros i x Hi Hx.
  unfold np.mul_scalar. rewrite list_lookup_fmap, Hi. simpl.
  eexists. split; [reflexivity|].
  by apply ieee.mul_zero_r, ieee.div_zero_l.
Qed.

Lemma multiplicative_zero_observations_witness :
  ∃ out : np.array,
    returned (LinearScaling.apply_on_window [0; 0] [2; 4] [5; 7])
             (LinearScaling.mk "multiplicative" ∅) = Ok out
    ∧ ∀ i x, [5; 7] !! i = Some x → is_finite x = true →
        ∃ y, out !! i = Some y ∧ (y =? 0) = true.
Proof.
  apply (multiplicative_zero_observations
           (LinearScaling.mk "multiplicative" ∅) [0; 0] [2; 4] [5; 7]);
    vm_compute; reflexivity.
Defined.

(** X4: the correction does not depend on [cm_future]: for both
    transformations, the output on a future series cut in two pieces is
    the output on the first piece followed by the output on the
    second. *)
Theorem apply_on_window_pieces
    (self : LinearScaling.t) (obs cm_hist future1 future2 : np.array) :
  LinearScaling.delta_type self = "additive"
  ∨ LinearScaling.delta_type self = "multiplicative" →
  ∃ out1 out2 : np.array,
    returned (LinearScaling.apply_on_window obs cm_hist future1) self = Ok out1
    ∧ returned (LinearScaling.apply_on_window obs cm_hist future2) self
      = Ok out2
    ∧ returned (LinearScaling.apply_on_window obs cm_hist (future1 ++ future2))
               self
      = Ok (out1 ++ out2).
Proof.
  intros [Hd|Hd]; unfold returned.
  - rewrite !apply_on_window_additive by done. simpl.
    do 2 eexists. split; [reflexivity|]. split; [reflexivity|].
    f_equal. apply fmap_app.
  - rewrite !apply_on_window_multiplicative by done. simpl.
    do 2 eexists. split; [reflexivity|]. split; [reflexivity|].
    f_equal. apply fmap_app.
Qed.

Lemma apply_on_window_pieces_witness :
  ∃ out1 out2 : np.array,
    returned (LinearScaling.apply_on_window [1; 1] [2; 2] [5])
             (LinearScaling.mk "additive" ∅) = Ok out1
    ∧ returned (LinearScaling.apply_on_window [1; 1] [2; 2] [6; 7])
               (LinearScaling.mk "additive" ∅) = Ok out2
    ∧ returned (LinearScaling.apply_on_window [1; 1] [2; 2] ([5] ++ [6; 7]))
               (LinearScaling.mk "additive" ∅)
      = Ok (out1 ++ out2).
Proof.
  apply (apply_on_window_pieces (LinearScaling.mk "additive" ∅)
           [1; 1] [2; 2] [5] [6; 7]).
  left. reflexivity.
Defined.

(** ** Construction and the transformation that follows *)

(** X5: the [from_variable] of the first cell leaves out the further
    keyword arguments of the call: whatever they are, the instance has no
    attribute from them besides [delta_type] and [variable], which it
    takes from the two named arguments. *)
Theorem from_variable_leaves_out_kwargs
    (variable delta_type : string) (kwargs : gmap string string) :
  ∃ self,
    LinearScaling.from_variable variable delta_type kwargs = Ok self
    ∧ LinearScaling.from_variable variable delta_type ∅ = Ok self
    ∧ ∀ name, LinearScaling.attribute self name
              = if decide (name = "delta_type") then Some delta_type
                else if decide (name = "variable") then Some variable
                else None.
Proof.
  eexists. split; [reflexivity|]. split; [reflexivity|]. intros name.
  unfold LinearScaling.attribute, LinearScaling.__init__. simpl.
  case_decide as Hd; [by rewrite lookup_insert_ne, lookup_singleton_eq|].
  rewrite lookup_delete_ne by done.
  case_decide as Hv; [subst; apply lookup_insert_eq|].
  rewrite lookup_insert_ne by done. by apply lookup_singleton_ne.
Qed.

Lemma delta_type_init_default (kwargs : gmap string string) :
  kwargs !! "delta_type" = None →
  LinearScaling.delta_type (LinearScaling.__init__ kwargs) = "additive".
Proof. intros H. unfold LinearScaling.__init__. simpl. by rewrite H. Qed.

(** X6: a [LinearScaling] constructed without [delta_type] applies the
    additive correction: [apply_on_window] returns
    [cm_future - (mean(cm_hist) - mean(obs))]. *)
Theorem default_delta_type_is_additive
    (kwargs : gmap string string) (obs cm_hist cm_future : np.array) :
  kwargs !! "delta_type" = None →
  returned (LinearScaling.apply_on_window obs cm_hist cm_future)
           (LinearScaling.__init__ kwargs)
  = Ok ((λ x, x - (np.mean cm_hist - np.mean obs)) <$> cm_future).
Proof.
  intros H. unfold returned.
  by rewrite apply_on_window_additive by by apply delta_type_init_default.
Qed.

Lemma default_delta_type_is_additive_witness :
  returned (LinearScaling.apply_on_window [1; 1] [2; 2] [5])
           (LinearScaling.__init__ {["variable" := "tas"]})
  = Ok [4].
Proof.
  exact (default_delta_type_is_additive {["variable" := "tas"]}
           [1; 1] [2; 2] [5] eq_refl).
Defined.

(** The entries of the two settings tables. *)
Lemma settings_entry variable (parameters : gmap string string) :
  LinearScalingDefaults.default_settings !! variable = Some parameters
  ∨ LinearScalingDefaults.experimental_default_settings !! variable
    = Some parameters →
  parameters !! "delta_type" = Some "additive"
  ∨ parameters !! "delta_type" = Some "multiplicative".
Proof.
  unfold LinearScalingDefaults.default_settings,
    LinearScalingDefaults.experimental_default_settings.
  intros [H|H];
    apply lookup_insert_Some in H as [[_ <-]|[_ [_ <-]%lookup_singleton_Some]];
    auto.
Qed.

(** X7: every entry of the two settings tables holds a [delta_type]
    that [apply_on_window] accepts: the instance constructed from an
    entry, with or without further keyword arguments other than
    [delta_type], transforms every window into an array of the length of
    [cm_future]. *)
Theorem settings_are_applicable
    (variable : string) (parameters kwargs : gmap string string)
    (obs cm_hist cm_future : np.array) :
  LinearScalingDefaults.default_settings !! variable = Some parameters
  ∨ LinearScalingDefaults.experimental_default_settings !! variable
    = Some parameters →
  kwargs !! "delta_type" = None →
  ∃ out : np.array,
    returned (LinearScaling.apply_on_window obs cm_hist cm_future)
             (LinearScaling.__init__
                (kwargs ∪ <["variable" := variable]> parameters))
    = Ok out
    ∧ length out = length cm_future.
Proof.
  intros Hentry Hkw.
  assert (Hd : LinearScaling.delta_type
                 (LinearScaling.__init__
                    (kwargs ∪ <["variable" := variable]> parameters))
               = "additive"
             ∨ LinearScaling.delta_type
                 (LinearScaling.__init__
                    (kwargs ∪ <["variable" := variable]> parameters))
               = "multiplicative").
  { unfold LinearScaling.__init__. simpl.
    rewrite lookup_union_r, lookup_insert_ne by done.
    destruct (settings_entry _ _ Hentry) as [-> | ->]; auto. }
  unfold returned. destruct Hd as [Hd|Hd].
  - rewrite apply_on_window_additive by done.
    eexists. split; [reflexivity|]. apply length_fmap.
  - rewrite apply_on_window_multiplicative by done.
    eexists. split; [reflexivity|]. apply length_fmap.
Qed.

Lemma settings_are_applicable_witness :
  ∃ out : np.array,
    returned (LinearScaling.apply_on_window [1; 3] [2; 6] [5; 7; 9])
             (LinearScaling.__init__
                (∅ ∪ <["variable" := "hurs"]> {["delta_type" := "multiplicative"]}))
    = Ok out
    ∧ length out = 3%nat.
Proof.
  apply (settings_are_applicable "hurs" {["delta_type" := "multiplicative"]} ∅
           [1; 3] [2; 6] [5; 7; 9]).
  - right. vm_compute. reflexivity.
  - reflexivity.
Defined.

(** ** [get_data] *)

Section get_data.

Import testing_data.

Context {V : Type} (disk : gmap string (gmap string V)).
Context (variable : string) (data_path : option string).

Lemma get_data_unfold data :
  disk !! (default "testing_data/" data_path +:+ variable +:+ ".npz")
  = Some data →
  get_data disk variable data_path
  = (obs ← getitem data "obs";
     cm_hist ← getitem data "cm_hist";
     cm_future ← getitem data "cm_future";
     time_obs ← getitem data "time_obs";
     time_cm_hist ← getitem data "time_cm_hist";
     time_cm_future ← getitem data "time_cm_future";
     mret (obs, cm_hist, cm_future,
           <["time_obs" := time_obs]>
             (<["time_cm_hist" := time_cm_hist]>
                {["time_cm_future" := time_cm_future]}))).
Proof. intros H. unfold get_data, load. by rewrite H. Qed.

End get_data.

(** X8: [get_data] returns exactly when the archive
    [data_path + variable + ".npz"] exists and holds the six entries it
    reads; it then returns the three arrays, and a dictionary whose keys
    are [time_obs], [time_cm_hist], [time_cm_future] and whose values are
    the entries of these names. *)
Theorem get_data_returns {V : Type} (disk : gmap string (gmap string V))
    (variable : string) (data_path : option string) :
  ((∃ r, testing_data.get_data disk variable data_path = inr r)
   ↔ ∃ data,
       disk !! (default "testing_data/" data_path +:+ variable +:+ ".npz")
       = Some data
       ∧ ∀ key, key ∈ testing_data.entries → is_Some (data !! key))
  ∧ ∀ obs cm_hist cm_future dates,
      testing_data.get_data disk variable data_path
      = inr (obs, cm_hist, cm_future, dates) →
      ∃ data,
        disk !! (default "testing_data/" data_path +:+ variable +:+ ".npz")
        = Some data
        ∧ data !! "obs" = Some obs
        ∧ data !! "cm_hist" = Some cm_hist
        ∧ data !! "cm_future" = Some cm_future
        ∧ dom dates = {["time_obs"; "time_cm_hist"; "time_cm_future"]}
        ∧ ∀ key, key ∈ dom dates → dates !! key = data !! key.
Proof.
  destruct (disk !! (default "testing_data/" data_path +:+ variable +:+ ".npz"))
    as [data|] eqn:Hdisk.
  2: { unfold testing_data.get_data, testing_data.load. rewrite Hdisk.
       split; [split|]; [by intros [? ?]|by intros (? & ? & _)|done]. }
  rewrite (get_data_unfold disk variable data_path data Hdisk).
  unfold testing_data.getitem, testing_data.entries.
  destruct (data !! "obs") as [obs|] eqn:H1;
  destruct (data !! "cm_hist") as [cm_hist|] eqn:H2;
  destruct (data !! "cm_future") as [cm_future|] eqn:H3;
  destruct (data !! "time_obs") as [time_obs|] eqn:H4;
  destruct (data !! "time_cm_hist") as [time_cm_hist|] eqn:H5;
  destruct (data !! "time_cm_future") as [time_cm_future|] eqn:H6;
  simpl.
  all: split;
    [split;
       [intros [r Hr]; try discriminate Hr
       |intros (data' & [= <-] & Hall); try eauto]
    |intros ? ? ? ? Hr; try discriminate Hr].
  all: try (exfalso;
            first [ apply (is_Some_None (A:=V)); rewrite <- H1
                  | apply (is_Some_None (A:=V)); rewrite <- H2
                  | apply (is_Some_None (A:=V)); rewrite <- H3
                  | apply (is_Some_None (A:=V)); rewrite <- H4
                  | apply (is_Some_None (A:=V)); rewrite <- H5
                  | apply (is_Some_None (A:=V)); rewrite <- H6 ];
            apply Hall; set_solver).
  - exists data. split; [done|]. intros key Hkey.
    repeat (apply elem_of_cons in Hkey as [->|Hkey]; [by eauto|]).
    by apply elem_of_nil in Hkey.
  - injection Hr as <- <- <- <-. exists data.
    do 4 (split; [done|]). split.
    + rewrite !dom_insert_L, dom_singleton_L. set_solver.
    + intros key. rewrite !dom_insert_L, dom_singleton_L.
      intros [->%elem_of_singleton
             |[->%elem_of_singleton| ->%elem_of_singleton]
                %elem_of_union]%elem_of_union;
        by rewrite ?H4, ?H5, ?H6.
Qed.

Lemma get_data_returns_witness :
  ∃ r,
    testing_data.get_data
      {["testing_data/tas.npz" :=
          <["obs" := 1%nat]> (<["cm_hist" := 2%nat]> (<["cm_future" := 3%nat]>
          (<["time_obs" := 4%nat]> (<["time_cm_hist" := 5%nat]>
          {["time_cm_future" := 6%nat]}))))]}
      "tas" None
    = inr r.
Proof.
  apply (proj1 (get_data_returns _ "tas" None)).
  exists (<["obs" := 1%nat]> (<["cm_hist" := 2%nat]> (<["cm_future" := 3%nat]>
          (<["time_obs" := 4%nat]> (<["time_cm_hist" := 5%nat]>
          {["time_cm_future" := 6%nat]}))))).
  split; [reflexivity|]. intros key Hkey.
  repeat (apply elem_of_cons in Hkey as [->|Hkey]; [eexists; reflexivity|]).
  by apply elem_of_nil in Hkey.
Defined.

(** X9: [get_data] fails with [FileNotFoundError] when the archive does
    not exist, and otherwise with the [KeyError] of the first entry, in
    the order [obs], [cm_hist], [cm_future], [time_obs], [time_cm_hist],
    [time_cm_future], that the archive does not hold. *)
Theorem get_data_raises {V : Type} (disk : gmap string (gmap string V))
    (variable : string) (data_path : option string) :
  (disk !! (default "testing_data/" data_path +:+ variable +:+ ".npz") = None →
   testing_data.get_data disk variable data_path
   = inl (FileNotFoundError
            (default "testing_data/" data_path +:+ variable +:+ ".npz")))
  ∧ ∀ data before key after,
      disk !! (default "testing_data/" data_path +:+ variable +:+ ".npz")
      = Some data →
      testing_data.entries = before ++ key :: after →
      Forall (λ k, is_Some (data !! k)) before →
      data !! key = None →
      testing_data.get_data disk variable data_path = inl (KeyError key).
Proof.
  split.
  { intros H. unfold testing_data.get_data, testing_data.load. by rewrite H. }
  intros data before key after Hdisk Hentries Hbefore Hkey.
  rewrite (get_data_unfold disk variable data_path data Hdisk).
  unfold testing_data.entries in Hentries. unfold testing_data.getitem.
  repeat (destruct before as [|? before];
          [injection Hentries as <- _; rewrite ?Hkey; reflexivity
          |injection Hentries as <- Hentries;
           apply Forall_cons in Hbefore as [[? ->] Hbefore]; simpl]).
  by destruct before.
Qed.

Lemma get_data_raises_witness :
  testing_data.get_data
    {["testing_data/tas.npz" :=
        <["obs" := 1%nat]> (<["cm_hist" := 2%nat]> {["time_obs" := 4%nat]})]}
    "tas" None
  = inl (KeyError "cm_future").
Proof.
  apply (proj2 (get_data_raises _ "tas" None)
           (<["obs" := 1%nat]> (<["cm_hist" := 2%nat]> {["time_obs" := 4%nat]}))
           ["obs"; "cm_hist"] "cm_future"
           ["time_obs"; "time_cm_hist"; "time_cm_future"]).
  - reflexivity.
  - reflexivity.
  - repeat constructor; eexists; reflexivity.
  - reflexivity.
Defined.

(** ** The unit conversion: shape, missing values and sign *)

Lemma Prim2SF_86400 : Prim2SF 86400 = S754_finite false 5937362789990400 (-36).
Proof. reflexivity. Qed.

Lemma shape_div_scalar3 (a : np.array3) (s : float) :
  shapes.shape (np.div_scalar3 a s) = shapes.shape a
  ∧ shapes.row_lengths (np.div_scalar3 a s) = shapes.row_lengths a.
Proof.
  unfold shapes.shape, shapes.row_lengths, np.div_scalar3, np.div_scalar. split.
  - destruct a as [|[|row plane] a]; simpl; by rewrite ?length_fmap.
  - rewrite <- list_fmap_compose. apply list_fmap_ext. intros _ plane _. simpl.
    rewrite <- list_fmap_compose. apply list_fmap_ext. intros _ row _. simpl.
    apply length_fmap.
Qed.

(** X10: the conversion cell keeps the shape of [obs_era5] that section
    2.3 prints, and the length of every row of every plane. *)
Theorem convert_units_keeps_shape (nb : preprocessing.state) :
  shapes.shape (preprocessing.obs_era5 (preprocessing.convert_units nb))
  = shapes.shape (preprocessing.obs_era5 nb)
  ∧ shapes.row_lengths (preprocessing.obs_era5 (preprocessing.convert_units nb))
    = shapes.row_lengths (preprocessing.obs_era5 nb).
Proof. apply shape_div_scalar3. Qed.

(** X11: the conversion cell keeps the missing values of [obs_era5]
    where they are and makes no new one: an element is [nan] after the
    cell exactly when it was before. *)
Theorem convert_units_keeps_missing (nb : preprocessing.state) t i j x :
  np.item3 (preprocessing.obs_era5 nb) t i j = Some x →
  ∃ y,
    np.item3 (preprocessing.obs_era5 (preprocessing.convert_units nb)) t i j
    = Some y
    ∧ is_nan y = is_nan x.
Proof.
  intros Hx. simpl. rewrite item3_div_scalar3, Hx. simpl.
  eexists. split; [reflexivity|].
  apply (ieee.div_positive_constant x 86400 _ _ Prim2SF_86400).
Qed.

Lemma convert_units_keeps_missing_witness :
  ∃ y,
    np.item3 (preprocessing.obs_era5
                (preprocessing.convert_units
                   (preprocessing.mk [] [] [[[1; nan]]] []))) 0 0 1
    = Some y
    ∧ is_nan y = is_nan nan.
Proof.
  apply (convert_units_keeps_missing (preprocessing.mk [] [] [[[1; nan]]] [])
           0 0 1 nan).
  reflexivity.
Defined.

(** X12: the conversion cell keeps precipitation from becoming
    negative: an element of [obs_era5] that is [>= 0] before the cell is
    [>= 0] after it. *)
Theorem convert_units_keeps_nonnegative (nb : preprocessing.state) t i j x :
  np.item3 (preprocessing.obs_era5 nb) t i j = Some x →
  (0 <=? x) = true →
  ∃ y,
    np.item3 (preprocessing.obs_era5 (preprocessing.convert_units nb)) t i j
    = Some y
    ∧ (0 <=? y) = true.
Proof.
  intros Hx Hpos. simpl. rewrite item3_div_scalar3, Hx. simpl.
  eexists. split; [reflexivity|].
  by apply (ieee.div_positive_constant x 86400 _ _ Prim2SF_86400).
Qed.

Lemma convert_units_keeps_nonnegative_witness :
  ∃ y,
    np.item3 (preprocessing.obs_era5
                (preprocessing.convert_units
                   (preprocessing.mk [] [] [[[0x1p-1074; 3]]] []))) 0 0 0
    = Some y
    ∧ (0 <=? y) = true.
Proof.
  apply (convert_units_keeps_nonnegative
           (preprocessing.mk [] [] [[[0x1p-1074; 3]]] []) 0 0 0 0x1p-1074);
    reflexivity.
Defined.

(** ** The data directory and the NCEP/DOE download cell *)



Section cleanup.

Import download.

Lemma cleanup_all filenames : ∀ d,
  NoDup filenames → (∀ f, f ∈ filenames → f ∈ d) →
  cleanup filenames d = (None, d ∖ list_to_set filenames).
Proof.
  induction filenames as [|f filenames IH]; intros d Hnodup Hin; simpl.
  - f_equal. set_solver.
  - apply NoDup_cons in Hnodup as [Hf Hnodup].
    unfold remove. rewrite decide_True by (apply Hin; left).
    rewrite IH; [f_equal; set_solver|done|].
    intros f' Hf'. apply elem_of_difference. split; [apply Hin; by right|].
    intros ->%elem_of_singleton. done.
Qed.

End cleanup.

Section ncep.

Import download.

Context (remote : string → bool) (var : string).

#[local] Abbreviation yearly_paths := (yearly_paths var).

Lemma retrieve_years_all todo : ∀ d filenames,
  DATADIR ∈ d →
  (∀ year, year ∈ todo → remote (ncep_url var year) = true) →
  retrieve_years remote var todo d filenames
  = (None, list_to_set (yearly_paths todo) ∪ d, [],
     filenames ++ yearly_paths todo).
Proof.
  induction todo as [|year todo IH]; intros d filenames Hdir Hremote; simpl.
  - rewrite app_nil_r. do 3 f_equal. set_solver.
  - unfold urlretrieve, write.
    rewrite Hremote by left. rewrite decide_True by done.
    rewrite IH; [|set_solver|by intros; apply Hremote; right].
    rewrite <- app_assoc. do 3 f_equal. set_solver.
Qed.

(** A missing file stops the loop where it is: the files of the years
    before stay on disk, the iterator holds the years after. *)
Lemma retrieve_years_stops before year after : ∀ d filenames,
  DATADIR ∈ d →
  (∀ y, y ∈ before → remote (ncep_url var y) = true) →
  remote (ncep_url var year) = false →
  retrieve_years remote var (before ++ year :: after) d filenames
  = (Some (HTTPError (ncep_url var year)),
     list_to_set (yearly_paths before) ∪ d, after,
     filenames ++ yearly_paths before).
Proof.
  induction before as [|y before IH]; intros d filenames Hdir Hremote Hyear;
    simpl.
  - unfold urlretrieve. rewrite Hyear, app_nil_r. do 3 f_equal. set_solver.
  - unfold urlretrieve, write.
    rewrite Hremote by left. rewrite decide_True by done.
    rewrite IH; [|set_solver|by intros; apply Hremote; right|done].
    rewrite <- app_assoc. do 3 f_equal. set_solver.
Qed.

Lemma open_mfdataset_match d path :
  path ∈ d → glob_star (DATADIR +:+ "/" +:+ var +:+ "_") ".nc" path = true →
  ∃ paths, open_mfdataset var d = inr paths.
Proof.
  intros Hin Hglob. unfold open_mfdataset.
  destruct (filter _ (elements d)) as [|p paths] eqn:Hfilter; [|by eauto].
  assert (Hp : path ∈ filter
            (λ p, glob_star (DATADIR +:+ "/" +:+ var +:+ "_") ".nc" p = true)
            (elements d)).
  { apply list_elem_of_filter. split; [done|by apply elem_of_elements]. }
  rewrite Hfilter in Hp. by apply elem_of_nil in Hp.
Qed.

Lemma open_mfdataset_none d :
  (∀ path, path ∈ d →
     glob_star (DATADIR +:+ "/" +:+ var +:+ "_") ".nc" path ≠ true) →
  open_mfdataset var d = inl (OSError "no files to open").
Proof.
  intros Hnone. unfold open_mfdataset.
  destruct (filter _ (elements d)) as [|p paths] eqn:Hfilter; [done|].
  assert (Hp : p ∈ filter
            (λ p, glob_star (DATADIR +:+ "/" +:+ var +:+ "_") ".nc" p = true)
            (elements d)) by (rewrite Hfilter; left).
  apply list_elem_of_filter in Hp as [Hglob Hp%elem_of_elements].
  by destruct (Hnone p Hp).
Qed.

End ncep.

(** The settings of the NCEP/DOE cell: the yearly files have pairwise
    different paths, the combined file is none of them, the pattern of
    [open_mfdataset] matches the yearly files and not the combined
    file. *)
Lemma ncep_yearly_NoDup :
  NoDup (download.yearly_paths "prate.sfc.gauss" (pretty <$> seq 1979 (2005 - 1979))).
Proof. apply (bool_decide_unpack _). vm_compute. exact I. Qed.

Lemma ncep_combined_not_yearly :
  download.DATADIR +:+ "/" +:+ "ncep_doe_" +:+ "prate.sfc.gauss" +:+ "_1979_2005.nc"
  ∉ download.yearly_paths "prate.sfc.gauss" (pretty <$> seq 1979 (2005 - 1979)).
Proof. apply (bool_decide_unpack _). vm_compute. exact I. Qed.

Lemma ncep_yearly_match :
  Forall (λ path, download.glob_star
                    (download.DATADIR +:+ "/" +:+ "prate.sfc.gauss" +:+ "_")
                    ".nc" path = true)
    (download.yearly_paths "prate.sfc.gauss" (pretty <$> seq 1979 (2005 - 1979))).
Proof. apply (bool_decide_unpack _). vm_compute. exact I. Qed.

Lemma ncep_combined_no_match :
  download.glob_star (download.DATADIR +:+ "/" +:+ "prate.sfc.gauss" +:+ "_") ".nc"
    (download.DATADIR +:+ "/" +:+ "ncep_doe_" +:+ "prate.sfc.gauss"
       +:+ "_1979_2005.nc")
  = false.
Proof. vm_compute. reflexivity. Qed.

Lemma disk_after_cleanup (combined : string) (yearly : list string)
    (d : gset string) path :
  path ∈ ({[combined]} ∪ (list_to_set yearly ∪ d)) ∖ list_to_set yearly
  ↔ (path = combined ∨ path ∈ d) ∧ path ∉ yearly.
Proof.
  rewrite elem_of_difference, !elem_of_union, elem_of_singleton,
    elem_of_list_to_set. tauto.
Qed.

Section ncep_download.

Import download.

Context (remote : string → bool).

(** A run of the download cell on a used-up iterator, when no file on
    disk matches the pattern of the yearly files. *)
Lemma ncep_download_exhausted (k : kernel) :
  years k = [] →
  (∀ path, path ∈ disk k →
     glob_star (DATADIR +:+ "/" +:+ variable k +:+ "_") ".nc" path ≠ true) →
  ncep_download remote k = (Some (OSError "no files to open"), k).
Proof.
  intros Hyears Hnone. unfold ncep_download. rewrite Hyears.
  cbn [retrieve_years]. rewrite open_mfdataset_none by done.
  destruct k; simpl in *; by subst.
Qed.

(** A run of the download cell in which every download succeeds. *)
Lemma ncep_download_all (k : kernel) :
  DATADIR ∈ disk k →
  (∀ year, year ∈ years k → remote (ncep_url (variable k) year) = true) →
  years k ≠ [] →
  NoDup (yearly_paths (variable k) (years k)) →
  Forall (λ path, glob_star (DATADIR +:+ "/" +:+ variable k +:+ "_") ".nc" path
                  = true)
    (yearly_paths (variable k) (years k)) →
  ncep_download remote k
  = (None,
     {| disk := ({[DATADIR +:+ "/" +:+ fname_ncep_doe k]}
                 ∪ (list_to_set (yearly_paths (variable k) (years k)) ∪ disk k))
                ∖ list_to_set (yearly_paths (variable k) (years k));
        variable := variable k; years := [];
        fname_ncep_doe := fname_ncep_doe k |}).
Proof.
  intros Hdir Hremote Hyears Hnodup Hmatch. unfold ncep_download.
  rewrite retrieve_years_all by done.
  destruct (open_mfdataset_match (variable k)
              (list_to_set (yearly_paths (variable k) (years k)) ∪ disk k)
              (DATADIR +:+ "/" +:+ yearly (variable k)
                 (default "" (head (years k)))))
    as [paths ->].
  { destruct (years k) as [|year ys]; [done|]. set_solver. }
  { destruct (years k) as [|year ys]; [done|].
    by apply Forall_cons in Hmatch as [? _]. }
  unfold write. rewrite decide_True by set_solver.
  rewrite app_nil_l, cleanup_all; [done|done|]. set_solver.
Qed.

End ncep_download.

(** X14: when [DATADIR] exists and the server answers for every year, the
    settings cell followed by the download cell ends normally; the
    iterator [years] is used up; and on disk the combined file
    [fname_ncep_doe] is there, no file of a single year is left, and
    every other path is as before. *)
Theorem ncep_download_cleans_up
    (remote : string → bool) (k : download.kernel) :
  download.DATADIR ∈ download.disk k →
  (∀ year, year ∈ download.years (download.ncep_settings k) →
     remote (download.ncep_url "prate.sfc.gauss" year) = true) →
  ∃ k',
    download.ncep_download remote (download.ncep_settings k) = (None, k')
    ∧ download.years k' = []
    ∧ length (download.years (download.ncep_settings k)) = 26%nat
    ∧ ∀ path,
        path ∈ download.disk k'
        ↔ (path = download.DATADIR +:+ "/"
                    +:+ download.fname_ncep_doe (download.ncep_settings k)
           ∨ path ∈ download.disk k)
          ∧ path ∉ download.yearly_paths "prate.sfc.gauss"
                     (download.years (download.ncep_settings k)).
Proof.
  intros Hdir Hremote. eexists. split.
  { apply ncep_download_all; [done|done|done| |].
    - apply ncep_yearly_NoDup.
    - apply ncep_yearly_match. }
  split; [reflexivity|]. split; [reflexivity|]. intros path.
  apply disk_after_cleanup.
Qed.

Lemma ncep_download_cleans_up_witness :
  ∃ k',
    download.ncep_download (λ _, true)
      (download.ncep_settings (download.mk {[download.DATADIR]} "" [] ""))
    = (None, k')
    ∧ download.years k' = [].
Proof.
  destruct (ncep_download_cleans_up (λ _, true)
              (download.mk {[download.DATADIR]} "" [] ""))
    as (k' & Hrun & Hyears & _).
  - vm_compute. reflexivity.
  - reflexivity.
  - exists k'. split; [exact Hrun|exact Hyears].
Defined.

Lemma ncep_datadir_not_yearly :
  download.DATADIR
  ∉ download.yearly_paths "prate.sfc.gauss" (pretty <$> seq 1979 (2005 - 1979)).
Proof. apply (bool_decide_unpack _). vm_compute. exact I. Qed.

(** X15: [years] is a [map] object, and the download cell uses it up.
    Running the download cell a second time, without the settings cell in
    between, downloads nothing and fails in [open_mfdataset] with
    "no files to open" (when no other file on disk matches the pattern of
    the yearly files), leaving the state as it is. *)
Theorem ncep_download_again_fails
    (remote : string → bool) (k : download.kernel) :
  download.DATADIR ∈ download.disk k →
  (∀ year, year ∈ download.years (download.ncep_settings k) →
     remote (download.ncep_url "prate.sfc.gauss" year) = true) →
  (∀ path, path ∈ download.disk k →
     download.glob_star
       (download.DATADIR +:+ "/" +:+ "prate.sfc.gauss" +:+ "_") ".nc" path = true →
     path ∈ download.yearly_paths "prate.sfc.gauss"
              (download.years (download.ncep_settings k))) →
  ∃ k',
    download.ncep_download remote (download.ncep_settings k) = (None, k')
    ∧ download.ncep_download remote k'
      = (Some (OSError "no files to open"), k').
Proof.
  intros Hdir Hremote Hother. eexists. split.
  { apply ncep_download_all; [done|done|done| |].
    - apply ncep_yearly_NoDup.
    - apply ncep_yearly_match. }
  apply ncep_download_exhausted; [reflexivity|].
  intros path [[-> | Hd] Hny]%disk_after_cleanup Hglob.
  - pose proof ncep_combined_no_match as Hc.
    apply (eq_true_false_abs _ Hglob Hc).
  - apply Hny. by apply Hother.
Qed.

Lemma ncep_download_again_fails_witness :
  ∃ k',
    download.ncep_download (λ _, true)
      (download.ncep_settings (download.mk {[download.DATADIR]} "" [] ""))
    = (None, k')
    ∧ download.ncep_download (λ _, true) k'
      = (Some (OSError "no files to open"), k').
Proof.
  apply (ncep_download_again_fails (λ _, true)
           (download.mk {[download.DATADIR]} "" [] "")).
  - vm_compute. reflexivity.
  - reflexivity.
  - intros path Hpath Hglob. cbn [download.disk] in Hpath.
    apply elem_of_singleton in Hpath as ->. vm_compute in Hglob.
    discriminate Hglob.
Defined.

(** X16: running the settings cell and the download cell again, after a
    run that ended normally, ends normally again and leaves the disk as
    the first run left it. *)
Theorem ncep_rerun_same_disk
    (remote : string → bool) (k : download.kernel) :
  download.DATADIR ∈ download.disk k →
  (∀ year, year ∈ download.years (download.ncep_settings k) →
     remote (download.ncep_url "prate.sfc.gauss" year) = true) →
  ∃ k' k'',
    download.ncep_download remote (download.ncep_settings k) = (None, k')
    ∧ download.ncep_download remote (download.ncep_settings k') = (None, k'')
    ∧ download.disk k'' = download.disk k'.
Proof.
  intros Hdir Hremote. eexists _, _. split; [|split].
  - apply ncep_download_all; [done|done|done| |].
    + apply ncep_yearly_NoDup.
    + apply ncep_yearly_match.
  - apply ncep_download_all; [|done|done| |].
    + apply disk_after_cleanup. split; [by right|].
      apply ncep_datadir_not_yearly.
    + apply ncep_yearly_NoDup.
    + apply ncep_yearly_match.
  - cbn [download.disk download.variable download.years
         download.fname_ncep_doe download.ncep_settings].
    apply set_eq. intros path. rewrite !disk_after_cleanup. tauto.
Qed.

Lemma ncep_rerun_same_disk_witness :
  ∃ k' k'',
    download.ncep_download (λ _, true)
      (download.ncep_settings (download.mk {[download.DATADIR]} "" [] ""))
    = (None, k')
    ∧ download.ncep_download (λ _, true) (download.ncep_settings k')
      = (None, k'')
    ∧ download.disk k'' = download.disk k'.
Proof.
  apply (ncep_rerun_same_disk (λ _, true)
           (download.mk {[download.DATADIR]} "" [] "")).
  - vm_compute. reflexivity.
  - reflexivity.
Defined.

(** X17: the download cell has no cleanup on failure: when the server
    does not answer for one year, the cell ends with the [HTTPError] of
    that year, the files of the years before it stay on disk, nothing
    else is written, and the iterator holds the years after it. *)
Theorem ncep_download_interrupted
    (remote : string → bool) (k : download.kernel)
    (before : list string) (year : string) (after : list string) :
  download.DATADIR ∈ download.disk k →
  download.years k = before ++ year :: after →
  (∀ y, y ∈ before →
     remote (download.ncep_url (download.variable k) y) = true) →
  remote (download.ncep_url (download.variable k) year) = false →
  download.ncep_download remote k
  = (Some (HTTPError (download.ncep_url (download.variable k) year)),
     {| download.disk :=
          list_to_set (download.yearly_paths (download.variable k) before)
          ∪ download.disk k;
        download.variable := download.variable k;
        download.years := after;
        download.fname_ncep_doe := download.fname_ncep_doe k |}).
Proof.
  intros Hdir Hyears Hbefore Hyear. unfold download.ncep_download.
  rewrite Hyears. by rewrite retrieve_years_stops.
Qed.

Lemma ncep_download_interrupted_witness :
  download.ncep_download
    (λ url, negb (String.eqb url (download.ncep_url "v" "1980")))
    (download.mk {[download.DATADIR]} "v" ["1979"; "1980"; "1981"] "c.nc")
  = (Some (HTTPError (download.ncep_url "v" "1980")),
     download.mk
       (list_to_set (download.yearly_paths "v" ["1979"]) ∪ {[download.DATADIR]})
       "v" ["1981"] "c.nc").
Proof.
  refine (ncep_download_interrupted
            (λ url, negb (String.eqb url (download.ncep_url "v" "1980")))
            (download.mk {[download.DATADIR]} "v" ["1979"; "1980"; "1981"] "c.nc")
            ["1979"] "1980" ["1981"] _ _ _ _).
  - vm_compute. reflexivity.
  - reflexivity.
  - intros y ->%list_elem_of_singleton. vm_compute. reflexivity.
  - vm_compute. reflexivity.
Defined.
